(** * Smart Life Monitor edge API: the vital-reading entity and its store

    A shallow embedding of
    - [vital_monitoring/domain/entities/vitals_reading.py] (the [VitalReading]
      dataclass: validation, classification, derived predicates), and
    - [vital_monitoring/infrastructure/persistence/in_memory_vitals_repository.py]
      (the dictionary-backed [InMemoryVitalRepository]),
    followed by the properties the specification states about them. *)

From Stdlib Require Import ZArith QArith List String Ascii Bool Lia.
From Stdlib Require Import Permutation Sorted.
Import ListNotations.
Local Open Scope Z_scope.

(* ================================================================== *)
(** * Python values used by the source *)

(** ** [str]: a sequence of Unicode code points *)
Module PyStr.

Definition str := list N.

(** Reading an ASCII literal as a [str]. *)
Definition of_string (s : string) : str :=
  map N_of_ascii (list_ascii_of_string s).

(** [c.isspace()] for one code point, the table [str.strip()] uses:
    U+0009..U+000D, U+001C..U+0020, U+0085, U+00A0, U+1680,
    U+2000..U+200A, U+2028, U+2029, U+202F, U+205F, U+3000. *)
Definition isspace (c : N) : bool :=
  (((9 <=? c) && (c <=? 13)) || ((28 <=? c) && (c <=? 32))
   || (c =? 133) || (c =? 160) || (c =? 5760)
   || ((8192 <=? c) && (c <=? 8202))
   || (c =? 8232) || (c =? 8233) || (c =? 8239) || (c =? 8287)
   || (c =? 12288))%N.

Fixpoint lstrip (s : str) : str :=
  match s with
  | [] => []
  | c :: s' => if isspace c then lstrip s' else s
  end.

Definition rstrip (s : str) : str := rev (lstrip (rev s)).

(** [s.strip()] *)
Definition strip (s : str) : str := rstrip (lstrip s).

(** Truth value of a [str]: [bool(s)], false exactly for the empty one. *)
Definition truthy (s : str) : bool :=
  match s with [] => false | _ :: _ => true end.

(** [a == b] *)
Fixpoint eqb (a b : str) : bool :=
  match a, b with
  | [], [] => true
  | x :: a', y :: b' => N.eqb x y && eqb a' b'
  | _, _ => false
  end.

End PyStr.

(** ** [float]: compared only against integer constants by the source.

    A binary64 value is a finite rational, an infinity or NaN; Python
    compares a float with an [int] exactly, and every comparison with NaN
    is false. *)
Module PyFloat.

Inductive float : Type :=
| Finite (q : Q)
| Infinity (negative : bool)
| NaN.

(** [x < k] *)
Definition ltb (x : float) (k : Z) : bool :=
  match x with
  | Finite q => negb (Qle_bool (inject_Z k) q)
  | Infinity negative => negative
  | NaN => false
  end.

(** [x > k] *)
Definition gtb (x : float) (k : Z) : bool :=
  match x with
  | Finite q => negb (Qle_bool q (inject_Z k))
  | Infinity negative => negb negative
  | NaN => false
  end.

(** The order on the extended number line, as propositions. *)
Definition lt (x : float) (k : Z) : Prop :=
  match x with
  | Finite q => (q < inject_Z k)%Q
  | Infinity negative => negative = true
  | NaN => False
  end.

Definition gt (x : float) (k : Z) : Prop :=
  match x with
  | Finite q => (inject_Z k < q)%Q
  | Infinity negative => negative = false
  | NaN => False
  end.

(** [x >= k] and [x <= k]; false for NaN like every comparison. *)
Definition ge (x : float) (k : Z) : Prop :=
  match x with
  | Finite q => (inject_Z k <= q)%Q
  | Infinity negative => negative = false
  | NaN => False
  end.

Definition le (x : float) (k : Z) : Prop :=
  match x with
  | Finite q => (q <= inject_Z k)%Q
  | Infinity negative => negative = true
  | NaN => False
  end.

Definition is_nan (x : float) : bool :=
  match x with NaN => true | _ => false end.

End PyFloat.

(* ================================================================== *)
(** * domain/entities/vitals_reading.py *)

Module HeartRateStatus.
Inductive t : Type := LOW | NORMAL | HIGH.

Definition value (s : t) : string :=
  match s with
  | LOW => "Low"
  | NORMAL => "Normal"
  | HIGH => "High"
  end.
End HeartRateStatus.

Module WeightAlert.
Inductive t : Type := NORMAL | OVERWEIGHT.

Definition value (a : t) : string :=
  match a with
  | NORMAL => "Normal"
  | OVERWEIGHT => "Overweight"
  end.
End WeightAlert.

(** The dataclass.  [timestamp] and [recorded_at] are instants, counted in
    microseconds. *)
Record VitalReading : Type := mkVitalReading {
  device_id : PyStr.str;
  weight_kg : PyFloat.float;
  heart_rate_bpm : Z;
  reading_id : PyStr.str;
  timestamp : Z;
  recorded_at : Z;
  heart_rate_status : option HeartRateStatus.t;
  weight_alert : option WeightAlert.t
}.

(** Outcome of code that may [raise ValueError(msg)]. *)
Inductive raises (A : Type) : Type :=
| Ok (a : A)
| ValueError (msg : string).
Arguments Ok {A} a.
Arguments ValueError {A} msg.

Definition bind_raises {A B} (m : raises A) (k : A -> raises B) : raises B :=
  match m with
  | Ok a => k a
  | ValueError msg => ValueError msg
  end.

Notation "m ;;; k" := (bind_raises m (fun _ => k))
  (at level 61, right associativity).

Definition _validate_device_id (self : VitalReading) : raises unit :=
  if negb (PyStr.truthy (device_id self))
     || negb (PyStr.truthy (PyStr.strip (device_id self)))
  then ValueError "Device ID cannot be empty"
  else Ok tt.

Definition _validate_weight (self : VitalReading) : raises unit :=
  if PyFloat.ltb (weight_kg self) 0 then
    ValueError "Weight cannot be negative"
  else if PyFloat.gtb (weight_kg self) 300 then
    ValueError "Weight exceeds maximum realistic value (300kg)"
  else Ok tt.

Definition _validate_heart_rate (self : VitalReading) : raises unit :=
  if heart_rate_bpm self <? 30 then
    ValueError "Heart rate too low (minimum: 30 BPM)"
  else if heart_rate_bpm self >? 220 then
    ValueError "Heart rate too high (maximum: 220 BPM)"
  else Ok tt.

(** The two classifiers assign a field of [self]. *)
Definition set_heart_rate_status (self : VitalReading)
    (v : option HeartRateStatus.t) : VitalReading :=
  mkVitalReading (device_id self) (weight_kg self) (heart_rate_bpm self)
    (reading_id self) (timestamp self) (recorded_at self)
    v (weight_alert self).

Definition set_weight_alert (self : VitalReading)
    (v : option WeightAlert.t) : VitalReading :=
  mkVitalReading (device_id self) (weight_kg self) (heart_rate_bpm self)
    (reading_id self) (timestamp self) (recorded_at self)
    (heart_rate_status self) v.

Definition _classify_heart_rate (self : VitalReading) : VitalReading :=
  if heart_rate_bpm self <? 60 then
    set_heart_rate_status self (Some HeartRateStatus.LOW)
  else if (60 <=? heart_rate_bpm self) && (heart_rate_bpm self <=? 100) then
    set_heart_rate_status self (Some HeartRateStatus.NORMAL)
  else
    set_heart_rate_status self (Some HeartRateStatus.HIGH).

Definition _classify_weight (self : VitalReading) : VitalReading :=
  if PyFloat.gtb (weight_kg self) 80 then
    set_weight_alert self (Some WeightAlert.OVERWEIGHT)
  else
    set_weight_alert self (Some WeightAlert.NORMAL).

Definition __post_init__ (self : VitalReading) : raises VitalReading :=
  _validate_device_id self ;;;
  _validate_weight self ;;;
  _validate_heart_rate self ;;;
  Ok (_classify_weight (_classify_heart_rate self)).

(** The generated [__init__]: stores the eight fields, then runs
    [__post_init__].  The default factories ([uuid4], [utcnow]) are the
    caller's [reading_id], [timestamp] and [recorded_at] here. *)
Definition VitalReading_init (device_id : PyStr.str) (weight_kg : PyFloat.float)
    (heart_rate_bpm : Z) (reading_id : PyStr.str) (timestamp recorded_at : Z)
    (heart_rate_status : option HeartRateStatus.t)
    (weight_alert : option WeightAlert.t) : raises VitalReading :=
  __post_init__
    (mkVitalReading device_id weight_kg heart_rate_bpm reading_id
       timestamp recorded_at heart_rate_status weight_alert).

Definition is_critical (self : VitalReading) : bool :=
  match heart_rate_status self with
  | Some HeartRateStatus.LOW | Some HeartRateStatus.HIGH => true
  | _ => false
  end
  || match weight_alert self with
     | Some WeightAlert.OVERWEIGHT => true
     | _ => false
     end.

Definition requires_medical_attention (self : VitalReading) : bool :=
  (heart_rate_bpm self <? 40) || (heart_rate_bpm self >? 120).

(* ================================================================== *)
(** * Python containers used by the repository *)

(** ** [dict] with [str] keys: insertion-ordered, one entry per key *)
Module PyDict.
Section Dict.
Context {V : Type}.

Definition dict : Type := list (PyStr.str * V).

(** [d.get(k)] *)
Fixpoint get (k : PyStr.str) (d : dict) : option V :=
  match d with
  | [] => None
  | (k', v) :: d' => if PyStr.eqb k k' then Some v else get k d'
  end.

(** [k in d] *)
Definition contains (k : PyStr.str) (d : dict) : bool :=
  match get k d with Some _ => true | None => false end.

(** [d[k] = v]: an existing key keeps its position, a new one goes last. *)
Fixpoint set (k : PyStr.str) (v : V) (d : dict) : dict :=
  match d with
  | [] => [(k, v)]
  | (k', v') :: d' =>
      if PyStr.eqb k k' then (k', v) :: d' else (k', v') :: set k v d'
  end.

(** [list(d.values())] *)
Definition values (d : dict) : list V := map snd d.

Definition keys (d : dict) : list PyStr.str := map fst d.

(** The representation invariant of a [dict]: no key occurs twice. *)
Definition wf (d : dict) : Prop := NoDup (keys d).

End Dict.
Arguments dict V : clear implicits.
End PyDict.

(** ** [list.sort(key=..., reverse=True)] and [l[:stop]] *)
Section PyList.
Context {A : Type}.
Variable key : A -> Z.

(** Python's sort is stable, also with [reverse=True]: elements with equal
    keys keep their relative order.  [x] stood before every element of [l],
    so it moves right only past strictly greater keys. *)
Fixpoint insert_reverse (x : A) (l : list A) : list A :=
  match l with
  | [] => [x]
  | y :: l' => if key x <? key y then y :: insert_reverse x l' else x :: l
  end.

Fixpoint sort_reverse (l : list A) : list A :=
  match l with
  | [] => []
  | x :: l' => insert_reverse x (sort_reverse l')
  end.

(** [l[:stop]]: a negative [stop] counts from the end. *)
Definition slice_to (l : list A) (stop : Z) : list A :=
  if stop <? 0
  then firstn (Z.to_nat (Z.max 0 (Z.of_nat (List.length l) + stop))) l
  else firstn (Z.to_nat stop) l.

End PyList.

(* ================================================================== *)
(** * infrastructure/persistence/in_memory_vitals_repository.py *)

(** The methods are coroutines that suspend nowhere except to await one
    another, so each call runs to completion on the instance.  The
    definitions here give what a call does to the two dictionaries and what
    it returns.  The [print] at the end of [save] comes after both writes
    and changes neither dictionary; that it can raise, when standard output
    cannot encode the line, is added for the callers of [save] by
    [await_save] further down. *)

(** The two dictionaries of an [InMemoryVitalRepository] instance. *)
Record Store : Type := mkStore {
  _readings : PyDict.dict VitalReading;
  _device_readings : PyDict.dict (list PyStr.str)
}.

(** [__init__] *)
Definition empty_store : Store := mkStore [] [].

(** A method either returns or raises [KeyError] (from a subscript [d[k]]);
    what it wrote to [self] before stays written. *)
Inductive outcome (A : Type) : Type :=
| Returns (a : A)
| KeyError (k : PyStr.str).
Arguments Returns {A} a.
Arguments KeyError {A} k.

Definition Repo (A : Type) : Type := Store -> outcome A * Store.

Definition ret {A} (a : A) : Repo A := fun s => (Returns a, s).

Definition bind {A B} (m : Repo A) (k : A -> Repo B) : Repo B :=
  fun s =>
    match m s with
    | (Returns a, s') => k a s'
    | (KeyError key, s') => (KeyError key, s')
    end.

Notation "x <- m ;; k" := (bind m (fun x => k))
  (at level 61, m at next level, right associativity).
Notation "m ;; k" := (bind m (fun _ => k))
  (at level 61, right associativity).

(** Reading [self]. *)
Definition gets {A} (f : Store -> A) : Repo A := fun s => (Returns (f s), s).

(** Writing [self]. *)
Definition modify (f : Store -> Store) : Repo unit :=
  fun s => (Returns tt, f s).

(** [self._device_readings[k]] *)
Definition device_readings_getitem (k : PyStr.str) : Repo (list PyStr.str) :=
  fun s =>
    match PyDict.get k (_device_readings s) with
    | Some ids => (Returns ids, s)
    | None => (KeyError k, s)
    end.

(** [[readings[rid] for rid in reading_ids if rid in readings]] *)
Fixpoint lookup_all (readings : PyDict.dict VitalReading)
    (reading_ids : list PyStr.str) : list VitalReading :=
  match reading_ids with
  | [] => []
  | rid :: rest =>
      match PyDict.get rid readings with
      | Some r => r :: lookup_all readings rest
      | None => lookup_all readings rest
      end
  end.

Definition save (vital_reading : VitalReading) : Repo VitalReading :=
  modify (fun s =>
    mkStore (PyDict.set (reading_id vital_reading) vital_reading (_readings s))
            (_device_readings s)) ;;
  known <- gets (fun s =>
    PyDict.contains (device_id vital_reading) (_device_readings s)) ;;
  (if negb known
   then modify (fun s =>
     mkStore (_readings s)
             (PyDict.set (device_id vital_reading) [] (_device_readings s)))
   else ret tt) ;;
  ids <- device_readings_getitem (device_id vital_reading) ;;
  modify (fun s =>
    mkStore (_readings s)
            (PyDict.set (device_id vital_reading)
               (ids ++ [reading_id vital_reading]) (_device_readings s))) ;;
  ret vital_reading.

Definition find_by_id (reading_id : PyStr.str) : Repo (option VitalReading) :=
  gets (fun s => PyDict.get reading_id (_readings s)).

Definition find_by_device (device_id : PyStr.str) (limit : Z)
    : Repo (list VitalReading) :=
  known <- gets (fun s => PyDict.contains device_id (_device_readings s)) ;;
  if negb known then ret []
  else
    reading_ids <- device_readings_getitem device_id ;;
    readings <- gets (fun s => lookup_all (_readings s) reading_ids) ;;
    let readings := sort_reverse timestamp readings in
    ret (slice_to readings limit).

(** The default of [limit]. *)
Definition find_by_device_default_limit : Z := 50.

Definition find_latest_by_device (device_id : PyStr.str)
    : Repo (option VitalReading) :=
  readings <- find_by_device device_id 1 ;;
  ret (match readings with
       | r :: _ => Some r
       | [] => None
       end).

Definition count_by_device (device_id : PyStr.str) : Repo Z :=
  known <- gets (fun s => PyDict.contains device_id (_device_readings s)) ;;
  if negb known then ret 0
  else
    ids <- device_readings_getitem device_id ;;
    ret (Z.of_nat (List.length ids)).

(** [if device_id:] is false for [None] and for the empty string. *)
Definition device_given (device_id : option PyStr.str) : option PyStr.str :=
  match device_id with
  | Some d => if PyStr.truthy d then Some d else None
  | None => None
  end.

Definition find_critical_readings (device_id : option PyStr.str)
    : Repo (list VitalReading) :=
  readings <- match device_given device_id with
              | Some d => find_by_device d 1000
              | None => gets (fun s => PyDict.values (_readings s))
              end ;;
  let critical := filter is_critical readings in
  let critical := sort_reverse timestamp critical in
  ret critical.

(* ================================================================== *)
(** * The validation rules as the specification lists them *)

Module ValidationSpec.

(** Python's [x >= k] and [x <= k] on a float. *)
Definition geb (x : PyFloat.float) (k : Z) : bool :=
  match x with
  | PyFloat.Finite q => Qle_bool (inject_Z k) q
  | PyFloat.Infinity negative => negb negative
  | PyFloat.NaN => false
  end.

Definition leb (x : PyFloat.float) (k : Z) : bool :=
  match x with
  | PyFloat.Finite q => Qle_bool q (inject_Z k)
  | PyFloat.Infinity negative => negative
  | PyFloat.NaN => false
  end.

Inductive rule : Type :=
| DeviceIdNonEmpty
| WeightAtLeast0
| WeightAtMost300
| HeartRateAtLeast30
| HeartRateAtMost220.

(** The order in which the rules are listed. *)
Definition rules_in_order : list rule :=
  [DeviceIdNonEmpty; WeightAtLeast0; WeightAtMost300;
   HeartRateAtLeast30; HeartRateAtMost220].

Definition message (k : rule) : string :=
  match k with
  | DeviceIdNonEmpty => "Device ID cannot be empty"
  | WeightAtLeast0 => "Weight cannot be negative"
  | WeightAtMost300 => "Weight exceeds maximum realistic value (300kg)"
  | HeartRateAtLeast30 => "Heart rate too low (minimum: 30 BPM)"
  | HeartRateAtMost220 => "Heart rate too high (maximum: 220 BPM)"
  end.

Definition holds (k : rule) (device_id : PyStr.str)
    (weight_kg : PyFloat.float) (heart_rate_bpm : Z) : bool :=
  match k with
  | DeviceIdNonEmpty => PyStr.truthy (PyStr.strip device_id)
  | WeightAtLeast0 => geb weight_kg 0
  | WeightAtMost300 => leb weight_kg 300
  | HeartRateAtLeast30 => 30 <=? heart_rate_bpm
  | HeartRateAtMost220 => heart_rate_bpm <=? 220
  end.

(** The first rule of the list that the input violates, if any. *)
Definition first_violated (device_id : PyStr.str)
    (weight_kg : PyFloat.float) (heart_rate_bpm : Z) : option rule :=
  find (fun k => negb (holds k device_id weight_kg heart_rate_bpm))
       rules_in_order.

(** A reading whose two classifications are set. *)
Definition fully_classified (r : VitalReading) : Prop :=
  heart_rate_status r <> None /\ weight_alert r <> None.

End ValidationSpec.

(* ================================================================== *)
(** * Notions the properties are stated with *)

(** Descending by key. *)
Definition descending {A : Type} (key : A -> Z) : list A -> Prop :=
  StronglySorted (fun a b => key b <= key a).

(** The index list of a device, empty when the device has no entry. *)
Definition index_of (s : Store) (dev : PyStr.str) : list PyStr.str :=
  match PyDict.get dev (_device_readings s) with
  | Some ids => ids
  | None => []
  end.

(** The readings reachable through a device's id list, in list order. *)
Definition readings_of (s : Store) (dev : PyStr.str) : list VitalReading :=
  lookup_all (_readings s) (index_of s dev).

(** Every index entry resolves, and to a reading of that device. *)
Definition index_consistent (s : Store) : Prop :=
  forall dev ids rid,
    PyDict.get dev (_device_readings s) = Some ids ->
    In rid ids ->
    exists r, PyDict.get rid (_readings s) = Some r /\ device_id r = dev.

Definition by_timestamp_desc : list VitalReading -> Prop :=
  descending timestamp.

(** Both dictionaries of a store are dictionaries: one entry per key. *)
Definition store_wf (s : Store) : Prop :=
  PyDict.wf (_readings s) /\ PyDict.wf (_device_readings s).

(* ================================================================== *)
(** * Sample readings and stores *)

(** Sample inputs. *)
Definition DEV_1 : PyStr.str := PyStr.of_string "DEV-1".
Definition DEV_2 : PyStr.str := PyStr.of_string "DEV-2".
Definition RID_a : PyStr.str := PyStr.of_string "a".
Definition RID_b : PyStr.str := PyStr.of_string "b".
Definition RID_c : PyStr.str := PyStr.of_string "c".

(** A reading that is both bradycardic and overweight, and a normal one. *)
Definition reading_low_heavy : VitalReading :=
  mkVitalReading DEV_1 (PyFloat.Finite (801 # 10)) 35 RID_a 100 100
    (Some HeartRateStatus.LOW) (Some WeightAlert.OVERWEIGHT).

Definition reading_normal : VitalReading :=
  mkVitalReading DEV_1 (PyFloat.Finite (80 # 1)) 60 RID_b 200 200
    (Some HeartRateStatus.NORMAL) (Some WeightAlert.NORMAL).

(** A store built by three saves: heart rates 55, 72, 130 at increasing
    timestamps, all from one device *)

Definition r55 : VitalReading :=
  mkVitalReading DEV_1 (PyFloat.Finite (70 # 1)) 55 RID_a 100 100
    (Some HeartRateStatus.LOW) (Some WeightAlert.NORMAL).

Definition r72 : VitalReading :=
  mkVitalReading DEV_1 (PyFloat.Finite (70 # 1)) 72 RID_b 200 200
    (Some HeartRateStatus.NORMAL) (Some WeightAlert.NORMAL).

Definition r130 : VitalReading :=
  mkVitalReading DEV_1 (PyFloat.Finite (70 # 1)) 130 RID_c 300 300
    (Some HeartRateStatus.HIGH) (Some WeightAlert.NORMAL).

Definition store_scenario : Store :=
  snd (save r130 (snd (save r72 (snd (save r55 empty_store))))).

(** A first reading of a second device, saved into the scenario store. *)
Definition r_other : VitalReading :=
  mkVitalReading DEV_2 (PyFloat.Finite (90 # 1)) 80 (PyStr.of_string "d")
    400 400 (Some HeartRateStatus.NORMAL) (Some WeightAlert.OVERWEIGHT).

(** Two saves that reuse one reading id for two devices: the second
    overwrites the map entry while the first device keeps the id listed. *)
Definition r_first : VitalReading :=
  mkVitalReading DEV_1 (PyFloat.Finite (70 # 1)) 55 RID_a 100 100
    (Some HeartRateStatus.LOW) (Some WeightAlert.NORMAL).

Definition r_second : VitalReading :=
  mkVitalReading DEV_2 (PyFloat.Finite (70 # 1)) 130 RID_a 200 200
    (Some HeartRateStatus.HIGH) (Some WeightAlert.NORMAL).

Definition store_reused_id : Store :=
  snd (save r_second (snd (save r_first empty_store))).

(* ================================================================== *)
(** * The rest of the entity and of the repository, and their callers *)

(** ** domain/entities/vitals_reading.py: [to_dict] *)

(** The dictionary [to_dict] builds, one field per key. *)
Record VitalReadingDict : Type := mkVitalReadingDict {
  dict_reading_id : PyStr.str;
  dict_device_id : PyStr.str;
  dict_weight_kg : PyFloat.float;
  dict_heart_rate_bpm : Z;
  dict_heart_rate_status : option string;
  dict_weight_alert : option string;
  dict_is_critical : bool;
  dict_requires_medical_attention : bool;
  dict_timestamp : string;
  dict_recorded_at : string
}.

(** ** infrastructure/persistence: [get_statistics] *)

Record Statistics : Type := mkStatistics {
  total_readings : Z;
  total_devices : Z;
  devices : PyDict.dict Z
}.

(** [{device_id: len(reading_ids) for device_id, reading_ids in d.items()}] *)
Definition count_per_device (d : PyDict.dict (list PyStr.str))
    : PyDict.dict Z :=
  fold_left
    (fun acc item => PyDict.set (fst item) (Z.of_nat (List.length (snd item))) acc)
    d [].

Definition get_statistics : Repo Statistics :=
  gets (fun s =>
    mkStatistics (Z.of_nat (List.length (_readings s)))
                 (Z.of_nat (List.length (_device_readings s)))
                 (count_per_device (_device_readings s))).

(** ** infrastructure/dtos/vitals_reading_dto.py: two of the validators *)

Definition VitalReadingDto_validate_device_id (v : PyStr.str)
    : raises PyStr.str :=
  if negb (PyStr.truthy v) || negb (PyStr.truthy (PyStr.strip v))
  then ValueError "device_id cannot be empty"
  else Ok (PyStr.strip v).

Definition VitalReadingDto_validate_heart_rate (v : Z) : raises Z :=
  if v <? 30 then ValueError "Heart rate too low (minimum: 30 BPM)"
  else if v >? 220 then ValueError "Heart rate too high (maximum: 220 BPM)"
  else Ok v.

(** ** application/: the command and query handlers *)

(** What a handler can raise: the entity's [ValueError], a [KeyError] of
    the repository, [AttributeError] from [.value] on [None], or the
    [UnicodeEncodeError] (a [ValueError]) of a [print] whose line standard
    output cannot encode, with its [str]. *)
Inductive exception : Type :=
| RaisedValueError (msg : string)
| RaisedKeyError (k : PyStr.str)
| RaisedAttributeError
| RaisedUnicodeEncodeError (msg : PyStr.str).

Inductive handled (A : Type) : Type :=
| Done (a : A)
| Raised (e : exception).
Arguments Done {A} a.
Arguments Raised {A} e.

Definition Handler (A : Type) : Type := Store -> handled A * Store.

Definition hret {A} (a : A) : Handler A := fun s => (Done a, s).

Definition hbind {A B} (m : Handler A) (k : A -> Handler B) : Handler B :=
  fun s =>
    match m s with
    | (Done a, s') => k a s'
    | (Raised e, s') => (Raised e, s')
    end.

Notation "x <-- m ;; k" := (hbind m (fun x => k))
  (at level 61, m at next level, right associativity).

(** [await self.repository.method(...)] *)
Definition await {A} (m : Repo A) : Handler A :=
  fun s =>
    match m s with
    | (Returns a, s') => (Done a, s')
    | (KeyError k, s') => (Raised (RaisedKeyError k), s')
    end.

(** Calling the entity's constructor. *)
Definition construct {A} (m : raises A) : Handler A :=
  fun s =>
    match m with
    | Ok a => (Done a, s)
    | ValueError msg => (Raised (RaisedValueError msg), s)
    end.

(** [field.value] on an [Optional] enum field. *)
Definition dot_value {E} (value : E -> string) (field : option E)
    : Handler string :=
  fun s =>
    match field with
    | Some e => (Done (value e), s)
    | None => (Raised RaisedAttributeError, s)
    end.

Module RecordVitalReadingCommand.
Record t : Type := mk {
  device_id : PyStr.str;
  weight_kg : PyFloat.float;
  heart_rate_bpm : Z
}.
End RecordVitalReadingCommand.

(** The dictionary the command handler returns. *)
Record RecordedReading : Type := mkRecordedReading {
  recorded_reading_id : PyStr.str;
  recorded_device_id : PyStr.str;
  recorded_weight_kg : PyFloat.float;
  recorded_heart_rate_bpm : Z;
  recorded_heart_rate_status : string;
  recorded_weight_alert : string;
  recorded_is_critical : bool;
  recorded_requires_medical_attention : bool;
  recorded_timestamp : string
}.

(** The ["current_status"] entry of a device status. *)
Record CurrentStatus : Type := mkCurrentStatus {
  current_weight_kg : PyFloat.float;
  current_heart_rate_bpm : Z;
  current_heart_rate_status : string;
  current_weight_alert : string;
  current_is_critical : bool;
  current_requires_medical_attention : bool
}.

(** The dictionary the device-status handler returns. *)
Record DeviceStatusReport : Type := mkDeviceStatusReport {
  report_device_id : PyStr.str;
  report_is_active : bool;
  report_last_contact : string;
  report_total_readings : Z;
  report_current_status : CurrentStatus;
  report_latest_reading : VitalReadingDict
}.

Module GetVitalHistoryQuery.
Record t : Type := mk {
  device_id : PyStr.str;
  limit : Z
}.

(** The default of [limit]. *)
Definition default_limit : Z := 50.
End GetVitalHistoryQuery.

(** The line [save] prints last:
    [f"\u2705 Saved reading {reading_id} for device {device_id}"]. *)
Definition saved_line (vital_reading : VitalReading) : PyStr.str :=
  [9989%N] ++ PyStr.of_string " Saved reading " ++ reading_id vital_reading
  ++ PyStr.of_string " for device " ++ device_id vital_reading.

(** A standard output in UTF-8: it encodes every text without a surrogate
    code point (U+D800..U+DFFF). *)
Definition utf8_encodes (text : PyStr.str) : bool :=
  forallb (fun c => negb ((55296 <=? c) && (c <=? 57343))%N) text.

Section Serialisation.

(** [datetime.isoformat()]: the text of an instant. *)
Variable isoformat : Z -> string.

(** Whether [sys.stdout] can encode a text, and the [str] of the
    [UnicodeEncodeError] that [print] raises when it cannot. *)
Variable stdout_encodes : PyStr.str -> bool.
Variable encode_error : PyStr.str -> PyStr.str.

(** [await self.repository.save(vital_reading)] as a caller sees it: the
    two writes, then the [print]; a line that cannot be encoded raises
    after the writes, and the writes stay. *)
Definition await_save (vital_reading : VitalReading)
    : Handler VitalReading :=
  saved_reading <-- await (save vital_reading) ;;
  if stdout_encodes (saved_line vital_reading)
  then hret saved_reading
  else fun s =>
         (Raised (RaisedUnicodeEncodeError
                    (encode_error (saved_line vital_reading))), s).

Definition to_dict (self : VitalReading) : VitalReadingDict :=
  mkVitalReadingDict
    (reading_id self) (device_id self) (weight_kg self) (heart_rate_bpm self)
    (option_map HeartRateStatus.value (heart_rate_status self))
    (option_map WeightAlert.value (weight_alert self))
    (is_critical self) (requires_medical_attention self)
    (isoformat (timestamp self)) (isoformat (recorded_at self)).

(** [RecordVitalReadingCommandHandler.handle].  The constructor's default
    factories draw [uuid4] once and [utcnow] twice. *)
Definition RecordVitalReadingCommandHandler_handle
    (uuid4 : PyStr.str) (utcnow_timestamp utcnow_recorded_at : Z)
    (command : RecordVitalReadingCommand.t) : Handler RecordedReading :=
  vital_reading <--
    construct
      (VitalReading_init
         (RecordVitalReadingCommand.device_id command)
         (RecordVitalReadingCommand.weight_kg command)
         (RecordVitalReadingCommand.heart_rate_bpm command)
         uuid4 utcnow_timestamp utcnow_recorded_at None None) ;;
  saved_reading <-- await_save vital_reading ;;
  status <-- dot_value HeartRateStatus.value
               (heart_rate_status saved_reading) ;;
  alert <-- dot_value WeightAlert.value (weight_alert saved_reading) ;;
  hret (mkRecordedReading
          (reading_id saved_reading) (device_id saved_reading)
          (weight_kg saved_reading) (heart_rate_bpm saved_reading)
          status alert
          (is_critical saved_reading)
          (requires_medical_attention saved_reading)
          (isoformat (timestamp saved_reading))).

(** [GetDeviceStatusQueryHandler.handle]; a reading object is always
    truthy, so [if not latest_reading] asks whether it is [None]. *)
Definition GetDeviceStatusQueryHandler_handle (query_device_id : PyStr.str)
    : Handler (option DeviceStatusReport) :=
  latest <-- await (find_latest_by_device query_device_id) ;;
  match latest with
  | None => hret None
  | Some latest_reading =>
      total_readings <-- await (count_by_device query_device_id) ;;
      status <-- dot_value HeartRateStatus.value
                   (heart_rate_status latest_reading) ;;
      alert <-- dot_value WeightAlert.value (weight_alert latest_reading) ;;
      hret (Some
        (mkDeviceStatusReport
           query_device_id true
           (isoformat (timestamp latest_reading))
           total_readings
           (mkCurrentStatus
              (weight_kg latest_reading) (heart_rate_bpm latest_reading)
              status alert
              (is_critical latest_reading)
              (requires_medical_attention latest_reading))
           (to_dict latest_reading)))
  end.

(** [GetVitalHistoryQueryHandler.handle] *)
Definition GetVitalHistoryQueryHandler_handle
    (query : GetVitalHistoryQuery.t) : Handler (list VitalReadingDict) :=
  readings <-- await (find_by_device (GetVitalHistoryQuery.device_id query)
                        (GetVitalHistoryQuery.limit query)) ;;
  hret (map to_dict readings).

End Serialisation.

(** ** main.py: three endpoints over the shared repository *)

(** An endpoint returns its body or raises [HTTPException]. *)
Inductive endpoint (A : Type) : Type :=
| Returned (body : A)
| HTTPException (status_code : Z) (detail : PyStr.str).
Arguments Returned {A} body.
Arguments HTTPException {A} status_code detail.

Definition HTTP_400_BAD_REQUEST : Z := 400.
Definition HTTP_404_NOT_FOUND : Z := 404.
Definition HTTP_500_INTERNAL_SERVER_ERROR : Z := 500.

(** The validated request body handed to [record_vital_reading]. *)
Module VitalReadingDto.
Record t : Type := mk {
  device_id : PyStr.str;
  weight_kg : PyFloat.float;
  heart_rate_bpm : Z
}.
End VitalReadingDto.

Record RecordResponse : Type := mkRecordResponse {
  record_success : bool;
  record_message : string;
  record_data : RecordedReading;
  record_timestamp : string
}.

Record StatusResponse : Type := mkStatusResponse {
  status_success : bool;
  status_data : DeviceStatusReport;
  status_timestamp : string
}.

Record HistoryData : Type := mkHistoryData {
  history_device_id : PyStr.str;
  history_readings_count : Z;
  history_readings : list VitalReadingDict
}.

Record HistoryResponse : Type := mkHistoryResponse {
  history_success : bool;
  history_data : HistoryData;
  history_timestamp : string
}.

Section Endpoints.

Variable isoformat : Z -> string.

(** [repr] of a string, which is what [str] of a [KeyError] shows. *)
Variable repr : PyStr.str -> PyStr.str.

(** Standard output, as for [await_save]. *)
Variable stdout_encodes : PyStr.str -> bool.
Variable encode_error : PyStr.str -> PyStr.str.

(** [str(e)] *)
Definition str_of_exception (e : exception) : PyStr.str :=
  match e with
  | RaisedValueError msg => PyStr.of_string msg
  | RaisedKeyError k => repr k
  | RaisedAttributeError =>
      PyStr.of_string "'NoneType' object has no attribute 'value'"
  | RaisedUnicodeEncodeError msg => msg
  end.

Definition internal_server_error {A} (e : exception) : endpoint A :=
  HTTPException HTTP_500_INTERNAL_SERVER_ERROR
    (PyStr.of_string "Internal server error: " ++ str_of_exception e).

(** [record_vital_reading]: [ValueError], [UnicodeEncodeError] included,
    becomes 400, anything else 500.  [utcnow] is the instant read for the
    response. *)
Definition record_vital_reading
    (uuid4 : PyStr.str) (utcnow_timestamp utcnow_recorded_at utcnow : Z)
    (dto : VitalReadingDto.t) (vital_repository : Store)
    : endpoint RecordResponse * Store :=
  let command :=
    RecordVitalReadingCommand.mk
      (VitalReadingDto.device_id dto) (VitalReadingDto.weight_kg dto)
      (VitalReadingDto.heart_rate_bpm dto) in
  match RecordVitalReadingCommandHandler_handle isoformat stdout_encodes
          encode_error uuid4 utcnow_timestamp utcnow_recorded_at command
          vital_repository with
  | (Done result, s') =>
      (Returned
         (mkRecordResponse true "Vital reading recorded successfully"
            result (isoformat utcnow)), s')
  | (Raised (RaisedValueError msg), s') =>
      (HTTPException HTTP_400_BAD_REQUEST (PyStr.of_string msg), s')
  | (Raised (RaisedUnicodeEncodeError msg), s') =>
      (HTTPException HTTP_400_BAD_REQUEST msg, s')
  | (Raised e, s') => (internal_server_error e, s')
  end.

(** [get_device_status]: a report is a non-empty dictionary, so
    [if not result] asks whether the handler returned [None]; the 404 it
    then raises passes through [except HTTPException: raise]. *)
Definition get_device_status (utcnow : Z) (device_id : PyStr.str)
    (vital_repository : Store) : endpoint StatusResponse * Store :=
  match GetDeviceStatusQueryHandler_handle isoformat device_id
          vital_repository with
  | (Done None, s') =>
      (HTTPException HTTP_404_NOT_FOUND
         (PyStr.of_string "Device " ++ device_id
          ++ PyStr.of_string " not found or has no readings"), s')
  | (Done (Some result), s') =>
      (Returned (mkStatusResponse true result (isoformat utcnow)), s')
  | (Raised e, s') => (internal_server_error e, s')
  end.

(** [get_vital_history]; [limit] defaults to 50. *)
Definition get_vital_history (utcnow : Z) (device_id : PyStr.str)
    (limit : Z) (vital_repository : Store)
    : endpoint HistoryResponse * Store :=
  match GetVitalHistoryQueryHandler_handle isoformat
          (GetVitalHistoryQuery.mk device_id limit) vital_repository with
  | (Done result, s') =>
      (Returned
         (mkHistoryResponse true
            (mkHistoryData device_id (Z.of_nat (List.length result)) result)
            (isoformat utcnow)), s')
  | (Raised e, s') => (internal_server_error e, s')
  end.

End Endpoints.

(** ** Notions the further properties are stated with *)

(** The store of a new repository after saving [rs] in order. *)
Definition saved (rs : list VitalReading) : Store :=
  fold_left (fun s r => snd (save r s)) rs empty_store.

(** Every id listed in an index is a key of the reading map. *)
Definition index_resolves (s : Store) : Prop :=
  forall dev ids rid,
    PyDict.get dev (_device_readings s) = Some ids ->
    In rid ids ->
    exists r, PyDict.get rid (_readings s) = Some r.

(** The readings of [rs] that carry device id [dev], in order. *)
Definition of_device (dev : PyStr.str) (rs : list VitalReading)
    : list VitalReading :=
  filter (fun r => PyStr.eqb (device_id r) dev) rs.

(** Every stored reading has both classifications set, as every reading
    that left the constructor has. *)
Definition readings_labelled (s : Store) : Prop :=
  forall rid r,
    PyDict.get rid (_readings s) = Some r ->
    heart_rate_status r <> None /\ weight_alert r <> None.

(** The labels of the two classifications, from the raw inputs. *)
Definition heart_rate_label (hr : Z) : string :=
  if hr <? 60 then "Low" else if hr <=? 100 then "Normal" else "High".

Definition weight_label (w : PyFloat.float) : string :=
  if PyFloat.gtb w 80 then "Overweight" else "Normal".

(** A fourth reading of the first device, newer than the three of the
    scenario, and the command that records it. *)
Definition RID_d : PyStr.str := PyStr.of_string "d".

Definition r90 : VitalReading :=
  mkVitalReading DEV_1 (PyFloat.Finite (70 # 1)) 90 RID_d 400 400
    (Some HeartRateStatus.NORMAL) (Some WeightAlert.NORMAL).

Definition command_r90 : RecordVitalReadingCommand.t :=
  RecordVitalReadingCommand.mk DEV_1 (PyFloat.Finite (70 # 1)) 90.

(** A device id made of a lone surrogate, U+D800. *)
Definition DEV_surrogate : PyStr.str := [55296%N].

(* ================================================================== *)
(** * Facts about the Python values *)

Lemma PyFloat_ltb_lt (x : PyFloat.float) (k : Z) :
  PyFloat.ltb x k = true <-> PyFloat.lt x k.
Proof.
  destruct x as [q | negative | ]; simpl.
  - rewrite negb_true_iff, <- not_true_iff_false, Qle_bool_iff.
    split; [apply Qnot_le_lt | apply Qlt_not_le].
  - tauto.
  - split; [discriminate | contradiction].
Qed.

Lemma PyFloat_gtb_gt (x : PyFloat.float) (k : Z) :
  PyFloat.gtb x k = true <-> PyFloat.gt x k.
Proof.
  destruct x as [q | negative | ]; simpl.
  - rewrite negb_true_iff, <- not_true_iff_false, Qle_bool_iff.
    split; [apply Qnot_le_lt | apply Qlt_not_le].
  - apply negb_true_iff.
  - split; [discriminate | contradiction].
Qed.

Lemma geb_ge (x : PyFloat.float) (k : Z) :
  ValidationSpec.geb x k = true <-> PyFloat.ge x k.
Proof.
  destruct x as [q | negative | ]; simpl.
  - apply Qle_bool_iff.
  - apply negb_true_iff.
  - split; [discriminate | contradiction].
Qed.

Lemma leb_le (x : PyFloat.float) (k : Z) :
  ValidationSpec.leb x k = true <-> PyFloat.le x k.
Proof.
  destruct x as [q | negative | ]; simpl.
  - apply Qle_bool_iff.
  - tauto.
  - split; [discriminate | contradiction].
Qed.

(** Away from NaN, "not below" is "at least" and "not above" is "at most". *)
Lemma PyFloat_ltb_geb (x : PyFloat.float) (k : Z) :
  PyFloat.is_nan x = false -> PyFloat.ltb x k = negb (ValidationSpec.geb x k).
Proof.
  destruct x as [q | negative | ]; simpl; intros H.
  - reflexivity.
  - now rewrite negb_involutive.
  - discriminate.
Qed.

Lemma PyFloat_gtb_leb (x : PyFloat.float) (k : Z) :
  PyFloat.is_nan x = false -> PyFloat.gtb x k = negb (ValidationSpec.leb x k).
Proof.
  destruct x as [q | negative | ]; simpl; intros H.
  - reflexivity.
  - reflexivity.
  - discriminate.
Qed.

Lemma PyStr_eqb_eq (a b : PyStr.str) : PyStr.eqb a b = true <-> a = b.
Proof.
  revert b; induction a as [ | x a IH]; intros [ | y b]; simpl;
    try (split; [discriminate | discriminate]); try tauto.
  rewrite andb_true_iff, N.eqb_eq, IH.
  split.
  - intros [-> ->]; reflexivity.
  - intros E; inversion E; auto.
Qed.

Lemma PyStr_eqb_refl (a : PyStr.str) : PyStr.eqb a a = true.
Proof. now apply PyStr_eqb_eq. Qed.

Lemma PyStr_eqb_neq (a b : PyStr.str) : PyStr.eqb a b = false <-> a <> b.
Proof.
  rewrite <- PyStr_eqb_eq. destruct (PyStr.eqb a b); split; congruence.
Qed.

(** [not s or not s.strip()] asks whether the stripped string is empty. *)
Lemma device_id_test (s : PyStr.str) :
  negb (PyStr.truthy s) || negb (PyStr.truthy (PyStr.strip s))
  = negb (PyStr.truthy (PyStr.strip s)).
Proof.
  destruct s as [ | c s]; reflexivity.
Qed.

Lemma PyStr_truthy_nonempty (s : PyStr.str) :
  PyStr.truthy s = true <-> s <> [].
Proof.
  destruct s; simpl; split; congruence.
Qed.

(** Stripping leaves nothing exactly when every character is whitespace. *)
Lemma lstrip_nil_iff (s : PyStr.str) :
  PyStr.lstrip s = [] <-> forallb PyStr.isspace s = true.
Proof.
  induction s as [ | c s IH]; simpl; [tauto | ].
  destruct (PyStr.isspace c); simpl; [exact IH | ].
  split; discriminate.
Qed.

Lemma forallb_isspace_lstrip (s : PyStr.str) :
  forallb PyStr.isspace (PyStr.lstrip s) = forallb PyStr.isspace s.
Proof.
  induction s as [ | c s IH]; simpl; [reflexivity | ].
  destruct (PyStr.isspace c) eqn:E; simpl; [exact IH | now rewrite E].
Qed.

Lemma forallb_rev {A : Type} (f : A -> bool) (l : list A) :
  forallb f (rev l) = forallb f l.
Proof.
  induction l as [ | a l IH]; simpl; [reflexivity | ].
  rewrite forallb_app, IH; simpl.
  rewrite andb_true_r. apply andb_comm.
Qed.

Lemma strip_empty_iff (s : PyStr.str) :
  PyStr.strip s = [] <-> forallb PyStr.isspace s = true.
Proof.
  unfold PyStr.strip, PyStr.rstrip.
  rewrite <- forallb_isspace_lstrip, <- forallb_rev, <- lstrip_nil_iff.
  split.
  - intros H. apply (f_equal (@rev N)) in H.
    now rewrite rev_involutive in H.
  - intros ->. reflexivity.
Qed.

(* ================================================================== *)
(** * The entity: construction and classification *)

Section Construction.
Variables (dev : PyStr.str) (w : PyFloat.float) (hr : Z).
Variables (rid : PyStr.str) (ts rec : Z).
Variables (hs0 : option HeartRateStatus.t) (wa0 : option WeightAlert.t).

Let self0 := mkVitalReading dev w hr rid ts rec hs0 wa0.

(** The classifiers touch nothing but their own field. *)
Lemma classified_raw_fields :
  let r := _classify_weight (_classify_heart_rate self0) in
  device_id r = dev /\ weight_kg r = w /\ heart_rate_bpm r = hr /\
  reading_id r = rid /\ timestamp r = ts /\ recorded_at r = rec.
Proof.
  unfold _classify_weight, _classify_heart_rate, self0; simpl.
  destruct (hr <? 60); [ | destruct ((60 <=? hr) && (hr <=? 100))]; simpl;
    destruct (PyFloat.gtb w 80); simpl; repeat split.
Qed.

(** What a successful construction went through. *)
Lemma VitalReading_init_Ok_inv (r : VitalReading) :
  VitalReading_init dev w hr rid ts rec hs0 wa0 = Ok r ->
  PyStr.strip dev <> [] /\
  PyFloat.ltb w 0 = false /\ PyFloat.gtb w 300 = false /\
  30 <= hr <= 220 /\
  r = _classify_weight (_classify_heart_rate self0).
Proof.
  unfold VitalReading_init, __post_init__, _validate_device_id,
    _validate_weight, _validate_heart_rate; simpl.
  rewrite device_id_test.
  destruct (PyStr.truthy (PyStr.strip dev)) eqn:Hdev; simpl; [ | discriminate].
  destruct (PyFloat.ltb w 0) eqn:Hlo; simpl; [discriminate | ].
  destruct (PyFloat.gtb w 300) eqn:Hhi; simpl; [discriminate | ].
  destruct (hr <? 30) eqn:H30; simpl; [discriminate | ].
  destruct (hr >? 220) eqn:H220; simpl; [discriminate | ].
  intros E; injection E as <-.
  apply PyStr_truthy_nonempty in Hdev.
  apply Z.ltb_ge in H30.
  rewrite Z.gtb_ltb in H220. apply Z.ltb_ge in H220.
  repeat split; auto.
Qed.

End Construction.

Example construct_low_heavy :
  VitalReading_init DEV_1 (PyFloat.Finite (801 # 10)) 35 RID_a 100 100
    None None = Ok reading_low_heavy.
Proof. reflexivity. Qed.

(** The boundaries: 60 BPM and 80 kg are both [Normal], and classifications
    handed to the constructor are overwritten. *)
Example construct_normal :
  VitalReading_init DEV_1 (PyFloat.Finite (80 # 1)) 60 RID_b 200 200
    (Some HeartRateStatus.HIGH) (Some WeightAlert.OVERWEIGHT)
  = Ok reading_normal.
Proof. reflexivity. Qed.

Example construct_boundaries :
  forall hr w,
    In (hr, w) [(59, 80 # 1); (60, 80 # 1); (100, 80 # 1); (101, 80 # 1);
                (60, 801 # 10)] ->
    exists r,
      VitalReading_init DEV_1 (PyFloat.Finite w) hr RID_a 0 0 None None = Ok r
      /\ heart_rate_status r
         = Some (if hr <? 60 then HeartRateStatus.LOW
                 else if hr <? 101 then HeartRateStatus.NORMAL
                 else HeartRateStatus.HIGH)
      /\ weight_alert r
         = Some (if Qle_bool w (80 # 1) then WeightAlert.NORMAL
                 else WeightAlert.OVERWEIGHT).
Proof.
  intros hr w H; simpl in H.
  repeat (destruct H as [H | H];
          [injection H as <- <-; eexists; repeat split; reflexivity | ]).
  contradiction.
Qed.

(** The rejected inputs: an empty and a blank device id, weights -0.01 and
    300.01, heart rates 29 and 221. *)
Example construct_rejected :
  VitalReading_init [] (PyFloat.Finite (70 # 1)) 72 RID_a 0 0 None None
    = ValueError "Device ID cannot be empty"
  /\ VitalReading_init (PyStr.of_string "   ") (PyFloat.Finite (70 # 1)) 72
       RID_a 0 0 None None
     = ValueError "Device ID cannot be empty"
  /\ VitalReading_init DEV_1 (PyFloat.Finite (-1 # 100)) 72 RID_a 0 0
       None None
     = ValueError "Weight cannot be negative"
  /\ VitalReading_init DEV_1 (PyFloat.Finite (30001 # 100)) 72 RID_a 0 0
       None None
     = ValueError "Weight exceeds maximum realistic value (300kg)"
  /\ VitalReading_init DEV_1 (PyFloat.Finite (70 # 1)) 29 RID_a 0 0
       None None
     = ValueError "Heart rate too low (minimum: 30 BPM)"
  /\ VitalReading_init DEV_1 (PyFloat.Finite (70 # 1)) 221 RID_a 0 0
       None None
     = ValueError "Heart rate too high (maximum: 220 BPM)".
Proof. repeat split. Qed.

(** What the two classifiers leave in [self], whatever it held before. *)
Lemma classifiers_spec (self : VitalReading) :
  let hr := heart_rate_bpm self in
  let w := weight_kg self in
  let r := _classify_weight (_classify_heart_rate self) in
  (heart_rate_status r = Some HeartRateStatus.LOW <-> hr < 60) /\
  (heart_rate_status r = Some HeartRateStatus.HIGH <-> hr > 100) /\
  (heart_rate_status r = Some HeartRateStatus.NORMAL <-> 60 <= hr <= 100) /\
  (weight_alert r = Some WeightAlert.OVERWEIGHT <-> PyFloat.gt w 80) /\
  (weight_alert r = Some WeightAlert.NORMAL <-> ~ PyFloat.gt w 80).
Proof.
  destruct self as [dev w hr rid ts rec hs0 wa0]; simpl.
  rewrite <- (PyFloat_gtb_gt w 80).
  unfold _classify_weight, _classify_heart_rate; simpl.
  destruct (hr <? 60) eqn:H60; simpl.
  - apply Z.ltb_lt in H60.
    destruct (PyFloat.gtb w 80); simpl;
      repeat split; intros; try congruence; try lia.
  - apply Z.ltb_ge in H60.
    destruct (60 <=? hr) eqn:Hge; [ | apply Z.leb_gt in Hge; lia].
    destruct (hr <=? 100) eqn:H100; simpl.
    + apply Z.leb_le in H100.
      destruct (PyFloat.gtb w 80); simpl;
        repeat split; intros; try congruence; try lia.
    + apply Z.leb_gt in H100.
      destruct (PyFloat.gtb w 80); simpl;
        repeat split; intros; try congruence; try lia.
Qed.

(** [is_critical] reads the two classification fields. *)
Lemma is_critical_fields (r : VitalReading) :
  is_critical r = true <->
    heart_rate_status r = Some HeartRateStatus.LOW \/
    heart_rate_status r = Some HeartRateStatus.HIGH \/
    weight_alert r = Some WeightAlert.OVERWEIGHT.
Proof.
  unfold is_critical.
  destruct (heart_rate_status r) as [[ | | ] | ];
    destruct (weight_alert r) as [[ | ] | ]; simpl;
    split; intros H; auto;
    try discriminate;
    destruct H as [H | [H | H]]; discriminate.
Qed.

(** C1.  For every successfully constructed reading the two classifications
    are exact functions of the raw inputs: the heart-rate status is [LOW]
    iff the rate is below 60, [HIGH] iff it is above 100 and [NORMAL] iff it
    is from 60 to 100; the weight alert is [OVERWEIGHT] iff the weight is
    above 80 and [NORMAL] otherwise. *)
Theorem classification_exact
    (dev : PyStr.str) (w : PyFloat.float) (hr : Z) (rid : PyStr.str)
    (ts rec : Z) (hs0 : option HeartRateStatus.t)
    (wa0 : option WeightAlert.t) (r : VitalReading) :
  VitalReading_init dev w hr rid ts rec hs0 wa0 = Ok r ->
  (heart_rate_bpm r = hr /\ weight_kg r = w) /\
  (heart_rate_status r = Some HeartRateStatus.LOW <-> hr < 60) /\
  (heart_rate_status r = Some HeartRateStatus.HIGH <-> hr > 100) /\
  (heart_rate_status r = Some HeartRateStatus.NORMAL <-> 60 <= hr <= 100) /\
  (weight_alert r = Some WeightAlert.OVERWEIGHT <-> PyFloat.gt w 80) /\
  (weight_alert r = Some WeightAlert.NORMAL <-> ~ PyFloat.gt w 80).
Proof.
  intros Hinit.
  apply VitalReading_init_Ok_inv in Hinit.
  destruct Hinit as (_ & _ & _ & _ & ->).
  split.
  - split; apply classified_raw_fields.
  - apply (classifiers_spec (mkVitalReading dev w hr rid ts rec hs0 wa0)).
Qed.

Lemma classification_exact_witness :
  VitalReading_init DEV_1 (PyFloat.Finite (801 # 10)) 35 RID_a 100 100
    None None = Ok reading_low_heavy
  /\ (heart_rate_status reading_low_heavy = Some HeartRateStatus.LOW <-> 35 < 60)
  /\ (weight_alert reading_low_heavy = Some WeightAlert.OVERWEIGHT
      <-> PyFloat.gt (PyFloat.Finite (801 # 10)) 80).
Proof.
  pose proof (classification_exact DEV_1 (PyFloat.Finite (801 # 10)) 35
                RID_a 100 100 None None reading_low_heavy eq_refl) as H.
  split; [reflexivity | split; apply H].
Defined.

(** C2.  For every successfully constructed reading, [is_critical] is true
    iff the heart-rate status is [LOW] or [HIGH] or the weight alert is
    [OVERWEIGHT]; in terms of the inputs, iff the rate is below 60 or above
    100 or the weight is above 80. *)
Theorem is_critical_iff
    (dev : PyStr.str) (w : PyFloat.float) (hr : Z) (rid : PyStr.str)
    (ts rec : Z) (hs0 : option HeartRateStatus.t)
    (wa0 : option WeightAlert.t) (r : VitalReading) :
  VitalReading_init dev w hr rid ts rec hs0 wa0 = Ok r ->
  (is_critical r = true <->
     heart_rate_status r = Some HeartRateStatus.LOW \/
     heart_rate_status r = Some HeartRateStatus.HIGH \/
     weight_alert r = Some WeightAlert.OVERWEIGHT) /\
  (is_critical r = true <-> hr < 60 \/ hr > 100 \/ PyFloat.gt w 80).
Proof.
  intros Hinit.
  split; [apply is_critical_fields | ].
  apply VitalReading_init_Ok_inv in Hinit.
  destruct Hinit as (_ & _ & _ & _ & ->).
  destruct (classifiers_spec (mkVitalReading dev w hr rid ts rec hs0 wa0))
    as (Hlow & Hhigh & _ & Hover & _).
  simpl in Hlow, Hhigh, Hover.
  rewrite is_critical_fields, Hlow, Hhigh, Hover. reflexivity.
Qed.

Lemma is_critical_iff_witness :
  VitalReading_init DEV_1 (PyFloat.Finite (801 # 10)) 35 RID_a 100 100
    None None = Ok reading_low_heavy
  /\ (is_critical reading_low_heavy = true <->
      35 < 60 \/ 35 > 100 \/ PyFloat.gt (PyFloat.Finite (801 # 10)) 80).
Proof.
  split; [reflexivity | ].
  apply (is_critical_iff DEV_1 (PyFloat.Finite (801 # 10)) 35
           RID_a 100 100 None None reading_low_heavy eq_refl).
Defined.

(** C5.  For every successfully constructed reading (its rate is then from
    30 to 220), [requires_medical_attention] is true iff the rate is in
    30..39 or in 121..220, and false for every rate in 40..120. *)
Theorem requires_medical_attention_iff
    (dev : PyStr.str) (w : PyFloat.float) (hr : Z) (rid : PyStr.str)
    (ts rec : Z) (hs0 : option HeartRateStatus.t)
    (wa0 : option WeightAlert.t) (r : VitalReading) :
  VitalReading_init dev w hr rid ts rec hs0 wa0 = Ok r ->
  heart_rate_bpm r = hr /\ 30 <= hr <= 220 /\
  (requires_medical_attention r = true <->
     30 <= hr <= 39 \/ 121 <= hr <= 220) /\
  (40 <= hr <= 120 -> requires_medical_attention r = false).
Proof.
  intros Hinit.
  apply VitalReading_init_Ok_inv in Hinit.
  destruct Hinit as (_ & _ & _ & Hbounds & ->).
  destruct (classified_raw_fields dev w hr rid ts rec hs0 wa0)
    as (_ & _ & Hhr & _).
  unfold requires_medical_attention. rewrite Hhr.
  rewrite Z.gtb_ltb.
  split; [reflexivity | split; [exact Hbounds | split]].
  - rewrite orb_true_iff, !Z.ltb_lt. lia.
  - intros H. apply orb_false_iff. rewrite !Z.ltb_ge. lia.
Qed.

Lemma requires_medical_attention_iff_witness :
  VitalReading_init DEV_1 (PyFloat.Finite (801 # 10)) 35 RID_a 100 100
    None None = Ok reading_low_heavy
  /\ (requires_medical_attention reading_low_heavy = true <->
      30 <= 35 <= 39 \/ 121 <= 35 <= 220).
Proof.
  split; [reflexivity | ].
  apply (requires_medical_attention_iff DEV_1 (PyFloat.Finite (801 # 10)) 35
           RID_a 100 100 None None reading_low_heavy eq_refl).
Defined.

(** C10.  For every successfully constructed reading,
    [requires_medical_attention] implies [is_critical]: a rate below 40 is
    classified [LOW] and one above 120 is classified [HIGH]. *)
Theorem requires_medical_attention_is_critical
    (dev : PyStr.str) (w : PyFloat.float) (hr : Z) (rid : PyStr.str)
    (ts rec : Z) (hs0 : option HeartRateStatus.t)
    (wa0 : option WeightAlert.t) (r : VitalReading) :
  VitalReading_init dev w hr rid ts rec hs0 wa0 = Ok r ->
  (hr < 40 -> heart_rate_status r = Some HeartRateStatus.LOW) /\
  (hr > 120 -> heart_rate_status r = Some HeartRateStatus.HIGH) /\
  (requires_medical_attention r = true -> is_critical r = true).
Proof.
  intros Hinit.
  apply VitalReading_init_Ok_inv in Hinit.
  destruct Hinit as (_ & _ & _ & _ & ->).
  destruct (classifiers_spec (mkVitalReading dev w hr rid ts rec hs0 wa0))
    as (Hlow & Hhigh & _).
  destruct (classified_raw_fields dev w hr rid ts rec hs0 wa0)
    as (_ & _ & Hhr & _).
  simpl in Hlow, Hhigh.
  split; [intros H; apply Hlow; lia | ].
  split; [intros H; apply Hhigh; lia | ].
  unfold requires_medical_attention. rewrite Hhr, Z.gtb_ltb.
  rewrite orb_true_iff, !Z.ltb_lt. intros H.
  apply is_critical_fields.
  destruct H as [H | H]; [left; apply Hlow | right; left; apply Hhigh]; lia.
Qed.

Lemma requires_medical_attention_is_critical_witness :
  VitalReading_init DEV_1 (PyFloat.Finite (801 # 10)) 35 RID_a 100 100
    None None = Ok reading_low_heavy
  /\ requires_medical_attention reading_low_heavy = true
  /\ is_critical reading_low_heavy = true.
Proof.
  split; [reflexivity | split; [reflexivity | ]].
  apply (requires_medical_attention_is_critical DEV_1
           (PyFloat.Finite (801 # 10)) 35 RID_a 100 100 None None
           reading_low_heavy eq_refl).
  reflexivity.
Defined.

(** ** Validation outcome *)

(** A NaN weight is neither below 0 nor above 300, so both weight checks
    let it through: with a valid device id and heart rate the reading is
    built, with a bad heart rate the heart-rate message is the one raised. *)
Example construct_nan_weight :
  VitalReading_init DEV_1 PyFloat.NaN 72 RID_a 0 0 None None
  = Ok (mkVitalReading DEV_1 PyFloat.NaN 72 RID_a 0 0
          (Some HeartRateStatus.NORMAL) (Some WeightAlert.NORMAL)).
Proof. reflexivity. Qed.

(** C3.  Construction is to fail with the message of the first violated
    rule, the weight rules coming before the heart-rate rules.  With a NaN
    weight and a heart rate of 29, the first rule of the list that fails is
    "weight >= 0" ([nan >= 0] is false), yet the code raises the
    heart-rate error, and not the weight one: the two weight checks let
    NaN through. *)
Lemma VitalReading_init_nan_weight :
  ValidationSpec.first_violated DEV_1 PyFloat.NaN 29
    = Some ValidationSpec.WeightAtLeast0
  /\ VitalReading_init DEV_1 PyFloat.NaN 29 RID_a 0 0 None None
     = ValueError "Heart rate too low (minimum: 30 BPM)"
  /\ VitalReading_init DEV_1 PyFloat.NaN 29 RID_a 0 0 None None
     <> ValueError (ValidationSpec.message ValidationSpec.WeightAtLeast0).
Proof.
  split; [reflexivity | split; [reflexivity | discriminate]].
Qed.

Lemma first_violated_None (dev : PyStr.str) (w : PyFloat.float) (hr : Z) :
  ValidationSpec.first_violated dev w hr = None <->
  forall k, ValidationSpec.holds k dev w hr = true.
Proof.
  unfold ValidationSpec.first_violated. split.
  - intros H k.
    pose proof (find_none _ _ H k) as Hk.
    apply negb_false_iff, Hk.
    destruct k; simpl; tauto.
  - intros H.
    destruct (find _ _) as [k | ] eqn:E; [ | reflexivity].
    apply find_some in E. destruct E as [_ E].
    rewrite H in E. discriminate.
Qed.

(** Away from NaN the constructor does follow the rules in their order.
    For every input whose weight is not NaN, construction
    either produces a fully-classified reading or fails with a
    [ValueError] whose message is that of the first violated rule, the
    rules being taken in the order: device id non-empty after stripping
    whitespace, weight >= 0, weight <= 300, heart rate >= 30, heart rate
    <= 220; for every such input satisfying all five rules it succeeds. *)
Theorem VitalReading_init_outcome
    (dev : PyStr.str) (w : PyFloat.float) (hr : Z) (rid : PyStr.str)
    (ts rec : Z) (hs0 : option HeartRateStatus.t)
    (wa0 : option WeightAlert.t) :
  PyFloat.is_nan w = false ->
  match ValidationSpec.first_violated dev w hr with
  | Some k =>
      VitalReading_init dev w hr rid ts rec hs0 wa0
      = ValueError (ValidationSpec.message k)
  | None =>
      exists r,
        VitalReading_init dev w hr rid ts rec hs0 wa0 = Ok r /\
        ValidationSpec.fully_classified r /\
        device_id r = dev /\ weight_kg r = w /\ heart_rate_bpm r = hr /\
        reading_id r = rid /\ timestamp r = ts /\ recorded_at r = rec
  end
  /\ ((forall k, ValidationSpec.holds k dev w hr = true) ->
      exists r, VitalReading_init dev w hr rid ts rec hs0 wa0 = Ok r).
Proof.
  intros Hnan.
  assert (Hmain :
    match ValidationSpec.first_violated dev w hr with
    | Some k =>
        VitalReading_init dev w hr rid ts rec hs0 wa0
        = ValueError (ValidationSpec.message k)
    | None =>
        exists r,
          VitalReading_init dev w hr rid ts rec hs0 wa0 = Ok r /\
          ValidationSpec.fully_classified r /\
          device_id r = dev /\ weight_kg r = w /\ heart_rate_bpm r = hr /\
          reading_id r = rid /\ timestamp r = ts /\ recorded_at r = rec
    end).
  { unfold ValidationSpec.first_violated, VitalReading_init, __post_init__,
      _validate_device_id, _validate_weight, _validate_heart_rate; simpl.
    rewrite device_id_test.
    rewrite (PyFloat_ltb_geb w 0 Hnan), (PyFloat_gtb_leb w 300 Hnan).
    rewrite Z.gtb_ltb, (Z.ltb_antisym 30 hr), (Z.ltb_antisym hr 220).
    destruct (PyStr.truthy (PyStr.strip dev)); simpl; [ | reflexivity].
    destruct (ValidationSpec.geb w 0); simpl; [ | reflexivity].
    destruct (ValidationSpec.leb w 300); simpl; [ | reflexivity].
    destruct (30 <=? hr); simpl; [ | reflexivity].
    destruct (hr <=? 220); simpl; [ | reflexivity].
    eexists; split; [reflexivity | ].
    split; [ | apply classified_raw_fields].
    destruct (classifiers_spec (mkVitalReading dev w hr rid ts rec hs0 wa0))
      as (Hlow & Hhigh & Hnormal & Hover & Hok).
    simpl in Hlow, Hhigh, Hnormal, Hover, Hok.
    split.
    - destruct (Z.lt_ge_cases hr 60) as [H | H];
        [apply Hlow in H; congruence | ].
      destruct (Z.le_gt_cases hr 100) as [H' | H'].
      + assert (H2 : 60 <= hr <= 100) by lia.
        apply Hnormal in H2; congruence.
      + assert (H2 : hr > 100) by lia.
        apply Hhigh in H2; congruence.
    - unfold _classify_weight.
      destruct (PyFloat.gtb _ 80); simpl; discriminate. }
  split; [exact Hmain | ].
  intros Hall. apply first_violated_None in Hall.
  rewrite Hall in Hmain.
  destruct Hmain as (r & Hr & _); exists r; exact Hr.
Qed.

Lemma VitalReading_init_outcome_witness :
  PyFloat.is_nan (PyFloat.Finite (3001 # 10)) = false
  /\ VitalReading_init DEV_1 (PyFloat.Finite (3001 # 10)) 29 RID_a 0 0
       None None
     = ValueError "Weight exceeds maximum realistic value (300kg)".
Proof.
  split; [reflexivity | ].
  apply (VitalReading_init_outcome DEV_1 (PyFloat.Finite (3001 # 10)) 29
           RID_a 0 0 None None eq_refl).
Defined.

(* ================================================================== *)
(** * Facts about the containers *)

Section DictFacts.
Context {V : Type}.
Implicit Types (d : PyDict.dict V) (k : PyStr.str) (v : V).

Lemma dict_get_set_same k v d : PyDict.get k (PyDict.set k v d) = Some v.
Proof.
  induction d as [ | [k' v'] d IH]; simpl.
  - now rewrite PyStr_eqb_refl.
  - destruct (PyStr.eqb k k') eqn:E; simpl; rewrite E; auto.
Qed.

Lemma dict_get_set_other k k' v d :
  k' <> k -> PyDict.get k' (PyDict.set k v d) = PyDict.get k' d.
Proof.
  intros Hne.
  induction d as [ | [k0 v0] d IH]; simpl.
  - apply PyStr_eqb_neq in Hne. now rewrite Hne.
  - destruct (PyStr.eqb k k0) eqn:E; simpl.
    + apply PyStr_eqb_eq in E; subst k0.
      apply PyStr_eqb_neq in Hne. now rewrite Hne.
    + now rewrite IH.
Qed.

Lemma dict_set_set k v0 v d :
  PyDict.set k v (PyDict.set k v0 d) = PyDict.set k v d.
Proof.
  induction d as [ | [k' v'] d IH]; simpl.
  - now rewrite PyStr_eqb_refl.
  - destruct (PyStr.eqb k k') eqn:E; simpl; rewrite E; [ | rewrite IH];
      reflexivity.
Qed.

Lemma dict_contains_get k d :
  PyDict.contains k d = true <-> exists v, PyDict.get k d = Some v.
Proof.
  unfold PyDict.contains. destruct (PyDict.get k d) as [v | ].
  - split; eauto.
  - split; [discriminate | intros [v H]; discriminate].
Qed.

Lemma dict_get_In k v d : PyDict.get k d = Some v -> In (k, v) d.
Proof.
  induction d as [ | [k' v'] d IH]; simpl; [discriminate | ].
  destruct (PyStr.eqb k k') eqn:E.
  - apply PyStr_eqb_eq in E; subst k'. intros H; injection H as ->. now left.
  - intros H; right; auto.
Qed.

Lemma dict_get_None_keys k d : PyDict.get k d = None <-> ~ In k (PyDict.keys d).
Proof.
  induction d as [ | [k' v'] d IH]; simpl.
  - tauto.
  - destruct (PyStr.eqb k k') eqn:E.
    + apply PyStr_eqb_eq in E; subst k'. split; [discriminate | tauto].
    + apply PyStr_eqb_neq in E. rewrite IH. split; [intros H [H' | H'] | ];
        try tauto. congruence.
Qed.

(** Assignment keeps the keys when the key is there and adds it last
    otherwise; either way no key comes to occur twice. *)
Lemma dict_keys_set k v d :
  PyDict.keys (PyDict.set k v d)
  = if PyDict.contains k d then PyDict.keys d else PyDict.keys d ++ [k].
Proof.
  unfold PyDict.contains.
  induction d as [ | [k' v'] d IH]; simpl; [reflexivity | ].
  destruct (PyStr.eqb k k') eqn:E; simpl; [reflexivity | ].
  rewrite IH. destruct (PyDict.get k d); reflexivity.
Qed.

Lemma dict_wf_set k v d : PyDict.wf d -> PyDict.wf (PyDict.set k v d).
Proof.
  unfold PyDict.wf. intros Hwf. rewrite dict_keys_set.
  unfold PyDict.contains.
  destruct (PyDict.get k d) eqn:E; [exact Hwf | ].
  apply dict_get_None_keys in E.
  apply (Permutation_NoDup (Permutation_cons_append (PyDict.keys d) k)).
  now constructor.
Qed.

(** In a well-formed dictionary the values are what the keys map to. *)
Lemma dict_values_get d v :
  PyDict.wf d ->
  (In v (PyDict.values d) <-> exists k, PyDict.get k d = Some v).
Proof.
  unfold PyDict.wf, PyDict.values.
  induction d as [ | [k' v'] d IH]; simpl; intros Hwf.
  - split; [contradiction | intros [k H]; discriminate].
  - inversion Hwf as [ | ? ? Hnotin Hwf']; subst.
    split.
    + intros [<- | Hin].
      * exists k'. now rewrite PyStr_eqb_refl.
      * apply IH in Hin; [ | exact Hwf']. destruct Hin as [k Hk].
        exists k. destruct (PyStr.eqb k k') eqn:E; [ | exact Hk].
        apply PyStr_eqb_eq in E; subst k'.
        apply dict_get_In in Hk. exfalso; apply Hnotin.
        change k with (fst (k, v)). now apply in_map.
    + intros [k Hk]. destruct (PyStr.eqb k k') eqn:E.
      * injection Hk as ->. now left.
      * right. apply IH; eauto.
Qed.

End DictFacts.

Section SortFacts.
Context {A : Type}.
Variable key : A -> Z.

Lemma insert_reverse_perm x l :
  Permutation (insert_reverse key x l) (x :: l).
Proof.
  induction l as [ | y l IH]; simpl; [reflexivity | ].
  destruct (key x <? key y); [ | reflexivity].
  rewrite IH. apply perm_swap.
Qed.

Lemma sort_reverse_perm l : Permutation (sort_reverse key l) l.
Proof.
  induction l as [ | x l IH]; simpl; [reflexivity | ].
  rewrite insert_reverse_perm. now constructor.
Qed.

Lemma sort_reverse_In l a : In a (sort_reverse key l) <-> In a l.
Proof.
  split; apply Permutation_in;
    [ | symmetry ]; apply sort_reverse_perm.
Qed.

Lemma insert_reverse_descending x l :
  descending key l -> descending key (insert_reverse key x l).
Proof.
  unfold descending.
  induction l as [ | y l IH]; simpl; intros Hs.
  - constructor; constructor.
  - inversion Hs as [ | ? ? Hl Hy]; subst.
    destruct (key x <? key y) eqn:E.
    + apply Z.ltb_lt in E.
      constructor; [now apply IH | ].
      assert (Hperm : Permutation (x :: l) (insert_reverse key x l))
        by (symmetry; apply insert_reverse_perm).
      apply (Permutation_Forall Hperm).
      constructor; [lia | exact Hy].
    + apply Z.ltb_ge in E.
      constructor; [exact Hs | ].
      constructor; [exact E | ].
      eapply Forall_impl; [ | exact Hy]. simpl; intros; lia.
Qed.

Lemma sort_reverse_descending l : descending key (sort_reverse key l).
Proof.
  induction l as [ | x l IH]; simpl.
  - constructor.
  - now apply insert_reverse_descending.
Qed.

(** Stability: the elements of any one key keep their order. *)
Lemma insert_reverse_stable x l t :
  descending key l ->
  filter (fun a => key a =? t) (insert_reverse key x l)
  = filter (fun a => key a =? t) (x :: l).
Proof.
  unfold descending.
  induction l as [ | y l IH]; intros Hs; [reflexivity | ].
  inversion Hs as [ | ? ? Hl Hy]; subst.
  cbn [insert_reverse].
  destruct (key x <? key y) eqn:E; [ | reflexivity].
  apply Z.ltb_lt in E.
  cbn [filter]. rewrite (IH Hl). cbn [filter].
  destruct (key x =? t) eqn:Ex; destruct (key y =? t) eqn:Ey; try reflexivity.
  apply Z.eqb_eq in Ex, Ey. lia.
Qed.

Lemma sort_reverse_stable l t :
  filter (fun a => key a =? t) (sort_reverse key l)
  = filter (fun a => key a =? t) l.
Proof.
  induction l as [ | x l IH]; [reflexivity | ].
  cbn [sort_reverse].
  rewrite insert_reverse_stable by apply sort_reverse_descending.
  cbn [filter]. now rewrite IH.
Qed.

(** A stable descending sort has one possible result: a descending list
    is determined by its key classes taken in order.  So whatever algorithm
    [list.sort] runs, it returns what [sort_reverse] returns. *)
Lemma descending_key_bound (l : list A) (x a : A) :
  descending key (x :: l) -> In a (x :: l) -> key a <= key x.
Proof.
  unfold descending. intros Hs [<- | Hin]; [lia | ].
  inversion Hs as [ | ? ? _ Hx]; subst.
  rewrite Forall_forall in Hx. now apply Hx.
Qed.

Lemma filter_key_nil (l : list A) (t : Z) :
  (forall a, In a l -> key a <> t) -> filter (fun a => key a =? t) l = [].
Proof.
  induction l as [ | a l IH]; intros H; simpl; [reflexivity | ].
  destruct (key a =? t) eqn:E.
  - apply Z.eqb_eq in E. exfalso. apply (H a); [now left | exact E].
  - apply IH. intros b Hb. apply H. now right.
Qed.

Lemma descending_classes_eq (l1 l2 : list A) :
  descending key l1 -> descending key l2 ->
  (forall t, filter (fun a => key a =? t) l1
             = filter (fun a => key a =? t) l2) ->
  l1 = l2.
Proof.
  revert l2. induction l1 as [ | x l1 IH]; intros l2 H1 H2 Hcls.
  - destruct l2 as [ | y l2]; [reflexivity | ].
    specialize (Hcls (key y)). simpl in Hcls.
    rewrite Z.eqb_refl in Hcls. discriminate.
  - destruct l2 as [ | y l2].
    { specialize (Hcls (key x)). simpl in Hcls.
      rewrite Z.eqb_refl in Hcls. discriminate. }
    assert (Hxy : key x = key y).
    { destruct (Z.lt_trichotomy (key x) (key y)) as [Hlt | [Heq | Hgt]];
        [ | exact Heq | ]; exfalso.
      - pose proof (Hcls (key y)) as Hc.
        rewrite (filter_key_nil (x :: l1)) in Hc.
        + simpl in Hc. rewrite Z.eqb_refl in Hc. discriminate.
        + intros a Ha. pose proof (descending_key_bound l1 x a H1 Ha). lia.
      - pose proof (Hcls (key x)) as Hc.
        rewrite (filter_key_nil (y :: l2)) in Hc.
        + simpl in Hc. rewrite Z.eqb_refl in Hc. discriminate.
        + intros a Ha. pose proof (descending_key_bound l2 y a H2 Ha). lia. }
    assert (Hhead : x = y /\
              filter (fun a => key a =? key x) l1
              = filter (fun a => key a =? key x) l2).
    { pose proof (Hcls (key x)) as Hc. simpl in Hc.
      rewrite <- Hxy, Z.eqb_refl in Hc. now injection Hc. }
    destruct Hhead as [<- Htail].
    f_equal. apply IH.
    + unfold descending in *. now inversion H1.
    + unfold descending in *. now inversion H2.
    + intros t. pose proof (Hcls t) as Hc. simpl in Hc.
      destruct (key x =? t) eqn:E; [ | exact Hc].
      now injection Hc.
Qed.

Lemma sort_reverse_unique (l sorted : list A) :
  descending key sorted ->
  (forall t, filter (fun a => key a =? t) sorted
             = filter (fun a => key a =? t) l) ->
  sorted = sort_reverse key l.
Proof.
  intros Hs Hcls. apply descending_classes_eq.
  - exact Hs.
  - apply sort_reverse_descending.
  - intros t. now rewrite sort_reverse_stable.
Qed.

Lemma slice_to_nonneg (l : list A) (stop : Z) :
  0 <= stop -> slice_to l stop = firstn (Z.to_nat stop) l.
Proof.
  intros H. unfold slice_to.
  destruct (stop <? 0) eqn:E; [apply Z.ltb_lt in E; lia | reflexivity].
Qed.

Lemma slice_to_length (l : list A) (stop : Z) :
  0 <= stop -> Z.of_nat (List.length (slice_to l stop)) <= stop.
Proof.
  intros H. rewrite slice_to_nonneg by exact H.
  pose proof (firstn_le_length (Z.to_nat stop) l). lia.
Qed.

Lemma descending_firstn (l : list A) (n : nat) :
  descending key l -> descending key (firstn n l).
Proof.
  unfold descending. revert n.
  induction l as [ | x l IH]; intros [ | n] Hs; simpl; try constructor.
  - inversion Hs; subst. now apply IH.
  - inversion Hs as [ | ? ? _ Hx]; subst.
    rewrite Forall_forall in *. intros a Ha. apply Hx.
    rewrite <- (firstn_skipn n l). apply in_or_app. now left.
Qed.

End SortFacts.

(* ================================================================== *)
(** * The repository *)

(** ** What each method computes *)

Lemma save_run (r : VitalReading) (s : Store) :
  save r s =
  (Returns r,
   mkStore (PyDict.set (reading_id r) r (_readings s))
           (PyDict.set (device_id r) (index_of s (device_id r) ++ [reading_id r])
              (_device_readings s))).
Proof.
  unfold save, bind, modify, gets, ret, device_readings_getitem, index_of,
    PyDict.contains; simpl.
  destruct (PyDict.get (device_id r) (_device_readings s)) as [ids | ] eqn:E;
    simpl.
  - rewrite E. reflexivity.
  - rewrite dict_get_set_same. simpl. now rewrite dict_set_set.
Qed.

Lemma find_by_id_run (rid : PyStr.str) (s : Store) :
  find_by_id rid s = (Returns (PyDict.get rid (_readings s)), s).
Proof. reflexivity. Qed.

Lemma find_by_device_run (dev : PyStr.str) (limit : Z) (s : Store) :
  find_by_device dev limit s =
  (Returns
     match PyDict.get dev (_device_readings s) with
     | Some _ => slice_to (sort_reverse timestamp (readings_of s dev)) limit
     | None => []
     end, s).
Proof.
  unfold find_by_device, bind, gets, ret, device_readings_getitem,
    readings_of, index_of, PyDict.contains.
  destruct (PyDict.get dev (_device_readings s)) eqn:E; simpl;
    rewrite ?E; reflexivity.
Qed.

Lemma find_latest_by_device_run (dev : PyStr.str) (s : Store) :
  find_latest_by_device dev s =
  (Returns
     match PyDict.get dev (_device_readings s) with
     | Some _ =>
         match slice_to (sort_reverse timestamp (readings_of s dev)) 1 with
         | r :: _ => Some r
         | [] => None
         end
     | None => None
     end, s).
Proof.
  unfold find_latest_by_device, bind. rewrite find_by_device_run.
  destruct (PyDict.get dev (_device_readings s)); reflexivity.
Qed.

Lemma count_by_device_run (dev : PyStr.str) (s : Store) :
  count_by_device dev s = (Returns (Z.of_nat (List.length (index_of s dev))), s).
Proof.
  unfold count_by_device, bind, gets, ret, device_readings_getitem, index_of,
    PyDict.contains.
  destruct (PyDict.get dev (_device_readings s)) eqn:E; simpl;
    rewrite ?E; reflexivity.
Qed.

Lemma find_critical_readings_run (device : option PyStr.str) (s : Store) :
  find_critical_readings device s =
  (Returns
     (sort_reverse timestamp
        (filter is_critical
           match device_given device with
           | Some d =>
               match PyDict.get d (_device_readings s) with
               | Some _ =>
                   slice_to (sort_reverse timestamp (readings_of s d)) 1000
               | None => []
               end
           | None => PyDict.values (_readings s)
           end)), s).
Proof.
  unfold find_critical_readings, bind.
  destruct (device_given device) as [d | ].
  - rewrite find_by_device_run. reflexivity.
  - reflexivity.
Qed.

Lemma In_slice_to {A : Type} (l : list A) (stop : Z) (a : A) :
  In a (slice_to l stop) -> In a l.
Proof.
  assert (Hfirstn : forall n, In a (firstn n l) -> In a l).
  { intros n H. rewrite <- (firstn_skipn n l). apply in_or_app. now left. }
  unfold slice_to. destruct (stop <? 0); apply Hfirstn.
Qed.

Lemma In_lookup_all (readings : PyDict.dict VitalReading)
    (ids : list PyStr.str) (r : VitalReading) :
  In r (lookup_all readings ids) <->
  exists rid, In rid ids /\ PyDict.get rid readings = Some r.
Proof.
  induction ids as [ | rid ids IH]; simpl.
  - split; [contradiction | intros (rid & [] & _)].
  - destruct (PyDict.get rid readings) as [r0 | ] eqn:E; simpl.
    + rewrite IH. split.
      * intros [<- | (rid' & Hin & Hget)]; eauto.
      * intros (rid' & [<- | Hin] & Hget); [left; congruence | eauto].
    + rewrite IH. split.
      * intros (rid' & Hin & Hget); eauto.
      * intros (rid' & [<- | Hin] & Hget); [congruence | eauto].
Qed.

(** ** The index stays consistent while reading ids are fresh *)

Lemma index_consistent_empty : index_consistent empty_store.
Proof. intros dev ids rid H; discriminate. Qed.

Lemma index_consistent_save (r : VitalReading) (s : Store) :
  index_consistent s ->
  PyDict.get (reading_id r) (_readings s) = None ->
  index_consistent (snd (save r s)).
Proof.
  intros Hs Hfresh. rewrite save_run. unfold index_consistent; simpl.
  assert (Hold : forall dev ids rid,
            PyDict.get dev (_device_readings s) = Some ids -> In rid ids ->
            exists r', PyDict.get rid
                         (PyDict.set (reading_id r) r (_readings s)) = Some r'
                       /\ device_id r' = dev).
  { intros dev ids rid Hidx Hin.
    destruct (Hs dev ids rid Hidx Hin) as (r' & Hget & Hdev).
    exists r'. split; [ | exact Hdev].
    rewrite dict_get_set_other; [exact Hget | congruence]. }
  intros dev ids rid Hidx Hin.
  destruct (PyStr.eqb dev (device_id r)) eqn:Edev.
  - apply PyStr_eqb_eq in Edev; subst dev.
    rewrite dict_get_set_same in Hidx. injection Hidx as <-.
    apply in_app_or in Hin. destruct Hin as [Hin | [<- | []]].
    + unfold index_of in Hin.
      destruct (PyDict.get (device_id r) (_device_readings s)) as [ids0 | ]
        eqn:E; [ | contradiction].
      exact (Hold _ _ _ E Hin).
    + exists r. now rewrite dict_get_set_same.
  - apply PyStr_eqb_neq in Edev.
    rewrite dict_get_set_other in Hidx by exact Edev.
    exact (Hold _ _ _ Hidx Hin).
Qed.

Lemma index_consistent_readings_of (s : Store) (dev : PyStr.str)
    (r : VitalReading) :
  index_consistent s -> In r (readings_of s dev) -> device_id r = dev.
Proof.
  intros Hs Hin. unfold readings_of, index_of in Hin.
  destruct (PyDict.get dev (_device_readings s)) as [ids | ] eqn:E;
    [ | contradiction].
  apply In_lookup_all in Hin. destruct Hin as (rid & Hin & Hget).
  destruct (Hs dev ids rid E Hin) as (r' & Hget' & Hdev). congruence.
Qed.

(** ** The dictionaries stay well-formed *)

Lemma store_wf_empty : store_wf empty_store.
Proof. split; constructor. Qed.

Lemma store_wf_save (r : VitalReading) (s : Store) :
  store_wf s -> store_wf (snd (save r s)).
Proof.
  intros [Hr Hd]. rewrite save_run. split; simpl; now apply dict_wf_set.
Qed.

(** The values of the reading map are the readings [find_by_id] finds. *)
Lemma stored_readings_found (s : Store) (r : VitalReading) :
  store_wf s ->
  (In r (PyDict.values (_readings s)) <->
   exists rid, find_by_id rid s = (Returns (Some r), s)).
Proof.
  intros [Hwf _]. rewrite (dict_values_get _ r Hwf).
  split; intros [rid H]; exists rid.
  - rewrite find_by_id_run. now rewrite H.
  - rewrite find_by_id_run in H. now injection H.
Qed.

Lemma sort_reverse_sorted_id {A : Type} (key : A -> Z) (l : list A) :
  descending key l -> sort_reverse key l = l.
Proof.
  unfold descending.
  induction l as [ | x l IH]; intros Hs; [reflexivity | ].
  inversion Hs as [ | ? ? Hl Hx]; subst.
  cbn [sort_reverse]. rewrite (IH Hl).
  destruct l as [ | y l]; [reflexivity | ].
  cbn [insert_reverse].
  inversion Hx as [ | ? ? Hy _]; subst.
  destruct (key x <? key y) eqn:E; [apply Z.ltb_lt in E; lia | reflexivity].
Qed.

Lemma descending_filter {A : Type} (key : A -> Z) (f : A -> bool)
    (l : list A) :
  descending key l -> descending key (filter f l).
Proof.
  unfold descending.
  induction l as [ | x l IH]; intros Hs; simpl; [constructor | ].
  inversion Hs as [ | ? ? Hl Hx]; subst.
  destruct (f x); [ | now apply IH].
  constructor; [now apply IH | ].
  rewrite Forall_forall in *. intros a Ha.
  apply filter_In in Ha. now apply Hx.
Qed.

Lemma descending_slice_to {A : Type} (key : A -> Z) (l : list A) (stop : Z) :
  descending key l -> descending key (slice_to l stop).
Proof.
  intros H. unfold slice_to.
  destruct (stop <? 0); now apply descending_firstn.
Qed.

Example scenario_constructed :
  VitalReading_init DEV_1 (PyFloat.Finite (70 # 1)) 55 RID_a 100 100
    None None = Ok r55
  /\ VitalReading_init DEV_1 (PyFloat.Finite (70 # 1)) 72 RID_b 200 200
       None None = Ok r72
  /\ VitalReading_init DEV_1 (PyFloat.Finite (70 # 1)) 130 RID_c 300 300
       None None = Ok r130.
Proof. repeat split. Qed.

Example scenario_queries :
  count_by_device DEV_1 store_scenario = (Returns 3, store_scenario)
  /\ find_latest_by_device DEV_1 store_scenario
     = (Returns (Some r130), store_scenario)
  /\ find_by_device DEV_1 2 store_scenario
     = (Returns [r130; r72], store_scenario)
  /\ find_critical_readings (Some DEV_1) store_scenario
     = (Returns [r130; r55], store_scenario)
  /\ find_critical_readings None store_scenario
     = (Returns [r130; r55], store_scenario)
  /\ find_by_device DEV_2 50 store_scenario = (Returns [], store_scenario)
  /\ count_by_device DEV_2 store_scenario = (Returns 0, store_scenario).
Proof. repeat split. Qed.

Lemma store_scenario_consistent : index_consistent store_scenario.
Proof.
  unfold store_scenario.
  repeat (apply index_consistent_save; [ | reflexivity]).
  apply index_consistent_empty.
Qed.

(** ** find_by_device *)

(** A negative [limit] is a slice bound counted from the end: [-1] drops
    the oldest reading and returns the other two. *)
Lemma find_by_device_negative_limit :
  find_by_device DEV_1 (-1) store_scenario
    = (Returns [r130; r72], store_scenario)
  /\ ~ Z.of_nat (List.length [r130; r72]) <= -1.
Proof.
  split; [reflexivity | simpl; lia].
Qed.

(** C4, amended.  For every store state, every device id and every
    [limit >= 0], [find_by_device] returns the readings reachable through
    that device's id list, sorted by timestamp descending with ties in
    insertion order (a stable sort), cut to the first [limit] elements; a
    device without an index entry gives the empty list, not an error. *)
Theorem find_by_device_sorted_limited
    (s : Store) (dev : PyStr.str) (limit : Z) :
  0 <= limit ->
  exists res sorted,
    find_by_device dev limit s = (Returns res, s) /\
    Permutation sorted (readings_of s dev) /\
    by_timestamp_desc sorted /\
    (forall t, filter (fun r => timestamp r =? t) sorted
               = filter (fun r => timestamp r =? t) (readings_of s dev)) /\
    res = firstn (Z.to_nat limit) sorted /\
    Z.of_nat (List.length res) <= limit /\
    (PyDict.get dev (_device_readings s) = None -> res = []).
Proof.
  intros Hlimit.
  exists (slice_to (sort_reverse timestamp (readings_of s dev)) limit).
  exists (sort_reverse timestamp (readings_of s dev)).
  split.
  { rewrite find_by_device_run.
    unfold readings_of, index_of.
    destruct (PyDict.get dev (_device_readings s)); [reflexivity | ].
    simpl. unfold slice_to. destruct (limit <? 0); now rewrite firstn_nil. }
  split; [apply sort_reverse_perm | ].
  split; [apply sort_reverse_descending | ].
  split; [intros t; apply sort_reverse_stable | ].
  split; [now apply slice_to_nonneg | ].
  split; [now apply slice_to_length | ].
  intros Hnone. unfold readings_of, index_of. rewrite Hnone. simpl.
  unfold slice_to. destruct (limit <? 0); now rewrite firstn_nil.
Qed.

Lemma find_by_device_sorted_limited_witness :
  0 <= 2
  /\ exists res,
       find_by_device DEV_1 2 store_scenario = (Returns res, store_scenario)
       /\ Z.of_nat (List.length res) <= 2.
Proof.
  split; [lia | ].
  destruct (find_by_device_sorted_limited store_scenario DEV_1 2)
    as (res & sorted & Hrun & _ & _ & _ & _ & Hlen & _); [lia | ].
  exists res. split; [exact Hrun | exact Hlen].
Defined.

(** ** save *)

(** C6.  For every store state and every reading [r], after [save r]:
    [find_by_id] of its id returns [r]; its id has been appended to the
    index list of its device (an absent list counting as empty), so that
    [count_by_device] is one greater than before; the index lists of all
    other devices and the entries of all other reading ids are unchanged. *)
Theorem save_effect (s : Store) (r : VitalReading) :
  exists s',
    save r s = (Returns r, s') /\
    find_by_id (reading_id r) s' = (Returns (Some r), s') /\
    PyDict.get (device_id r) (_device_readings s')
      = Some (index_of s (device_id r) ++ [reading_id r]) /\
    (exists n,
       count_by_device (device_id r) s = (Returns n, s) /\
       count_by_device (device_id r) s' = (Returns (n + 1), s')) /\
    (forall dev, dev <> device_id r ->
       PyDict.get dev (_device_readings s')
       = PyDict.get dev (_device_readings s)) /\
    (forall rid, rid <> reading_id r ->
       PyDict.get rid (_readings s') = PyDict.get rid (_readings s)).
Proof.
  eexists. split; [apply save_run | ].
  split.
  { rewrite find_by_id_run; simpl. now rewrite dict_get_set_same. }
  split.
  { simpl. apply dict_get_set_same. }
  split.
  { exists (Z.of_nat (List.length (index_of s (device_id r)))).
    split; [apply count_by_device_run | ].
    rewrite count_by_device_run. unfold index_of at 1; simpl.
    rewrite dict_get_set_same, length_app; simpl.
    do 2 f_equal. lia. }
  split.
  - intros dev Hne; simpl. now apply dict_get_set_other.
  - intros rid Hne; simpl. now apply dict_get_set_other.
Qed.

Lemma save_effect_witness :
  DEV_1 <> device_id r_other
  /\ RID_a <> reading_id r_other
  /\ exists s',
       save r_other store_scenario = (Returns r_other, s')
       /\ PyDict.get DEV_1 (_device_readings s')
          = PyDict.get DEV_1 (_device_readings store_scenario)
       /\ PyDict.get RID_a (_readings s')
          = PyDict.get RID_a (_readings store_scenario).
Proof.
  assert (Hdev : DEV_1 <> device_id r_other) by discriminate.
  assert (Hrid : RID_a <> reading_id r_other) by discriminate.
  split; [exact Hdev | split; [exact Hrid | ]].
  destruct (save_effect store_scenario r_other)
    as (s' & Hrun & _ & _ & _ & Hdevs & Hrids).
  exists s'. split; [exact Hrun | ].
  split; [exact (Hdevs DEV_1 Hdev) | exact (Hrids RID_a Hrid)].
Defined.

(** ** find_latest_by_device *)

(** C8.  For every store state and every device id,
    [find_latest_by_device] is the first element of
    [find_by_device device_id 1] when that list is non-empty, and absent
    when it is empty. *)
Theorem find_latest_by_device_head (s : Store) (dev : PyStr.str) :
  exists res,
    find_by_device dev 1 s = (Returns res, s) /\
    find_latest_by_device dev s = (Returns (hd_error res), s).
Proof.
  eexists. split; [apply find_by_device_run | ].
  rewrite find_latest_by_device_run.
  destruct (PyDict.get dev (_device_readings s)); [ | reflexivity].
  destruct (slice_to _ 1); reflexivity.
Qed.

(** ** The queries do not write *)

(** C9.  Every query of the store ([find_by_id], [find_by_device],
    [find_latest_by_device], [count_by_device], [find_critical_readings])
    leaves the store state, reading map and device index alike, as it was,
    for every state and every argument. *)
Theorem queries_leave_store_unchanged (s : Store) :
  (forall rid, snd (find_by_id rid s) = s) /\
  (forall dev limit, snd (find_by_device dev limit s) = s) /\
  (forall dev, snd (find_latest_by_device dev s) = s) /\
  (forall dev, snd (count_by_device dev s) = s) /\
  (forall device, snd (find_critical_readings device s) = s).
Proof.
  split; [intros rid; now rewrite find_by_id_run | ].
  split; [intros dev limit; now rewrite find_by_device_run | ].
  split; [intros dev; now rewrite find_latest_by_device_run | ].
  split; [intros dev; now rewrite count_by_device_run | ].
  intros device; now rewrite find_critical_readings_run.
Qed.

(** ** find_critical_readings *)

(** [if device_id:] sends the empty string down the branch of "no
    device": every critical reading of the store comes back, although the
    device [""] has no index entry and no reading carries that id.  And a
    device whose listed id was overwritten gets the other device's
    reading. *)
Lemma find_critical_readings_other_device :
  (find_critical_readings (Some []) store_reused_id
     = (Returns [r_second], store_reused_id)
   /\ readings_of store_reused_id [] = []
   /\ device_id r_second <> [])
  /\ (find_critical_readings (Some DEV_1) store_reused_id
        = (Returns [r_second], store_reused_id)
      /\ device_id r_second <> DEV_1).
Proof.
  repeat split; discriminate.
Qed.

(** C7, amended.  For every store state: [find_critical_readings] with a
    non-empty device id returns only readings with [is_critical] true that
    are listed under that device (the critical ones among
    [find_by_device device_id 1000], carrying that device id whenever the
    index is consistent), sorted by timestamp descending; with no device
    ([None], or the empty string, which the code treats alike) it returns
    exactly the stored readings with [is_critical] true across all devices,
    sorted by timestamp descending. *)
Theorem find_critical_readings_spec (s : Store) :
  (forall d, d <> [] ->
     exists res listed,
       find_critical_readings (Some d) s = (Returns res, s) /\
       find_by_device d 1000 s = (Returns listed, s) /\
       res = filter is_critical listed /\
       (forall r, In r res ->
          is_critical r = true /\ In r (readings_of s d)) /\
       (index_consistent s -> forall r, In r res -> device_id r = d) /\
       by_timestamp_desc res)
  /\
  (forall device, device = None \/ device = Some [] ->
     exists res,
       find_critical_readings device s = (Returns res, s) /\
       Permutation res (filter is_critical (PyDict.values (_readings s))) /\
       by_timestamp_desc res).
Proof.
  split.
  - intros d Hd.
    assert (Hgiven : device_given (Some d) = Some d).
    { destruct d; [contradiction | reflexivity]. }
    set (listed :=
           match PyDict.get d (_device_readings s) with
           | Some _ => slice_to (sort_reverse timestamp (readings_of s d)) 1000
           | None => []
           end).
    assert (Hsorted : by_timestamp_desc listed).
    { unfold listed. destruct (PyDict.get d (_device_readings s)).
      - apply descending_slice_to, sort_reverse_descending.
      - constructor. }
    assert (Hin : forall r, In r listed -> In r (readings_of s d)).
    { unfold listed. intros r Hr.
      destruct (PyDict.get d (_device_readings s)); [ | contradiction].
      apply In_slice_to in Hr. now apply sort_reverse_In in Hr. }
    assert (Hres : sort_reverse timestamp (filter is_critical listed)
                   = filter is_critical listed).
    { apply sort_reverse_sorted_id, descending_filter, Hsorted. }
    exists (filter is_critical listed), listed.
    split; [rewrite find_critical_readings_run, Hgiven; fold listed;
            now rewrite Hres | ].
    split; [apply find_by_device_run | ].
    split; [reflexivity | ].
    split.
    { intros r Hr. apply filter_In in Hr. destruct Hr as [Hr Hc].
      split; [exact Hc | now apply Hin]. }
    split.
    { intros Hs r Hr. apply filter_In in Hr. destruct Hr as [Hr _].
      apply (index_consistent_readings_of s d r Hs). now apply Hin. }
    now apply descending_filter.
  - intros device Hdevice.
    assert (Hgiven : device_given device = None).
    { destruct Hdevice as [-> | ->]; reflexivity. }
    eexists. split; [rewrite find_critical_readings_run, Hgiven; reflexivity | ].
    split; [apply sort_reverse_perm | apply sort_reverse_descending].
Qed.

Lemma find_critical_readings_spec_witness :
  DEV_1 <> [] /\ index_consistent store_scenario
  /\ (exists res,
        find_critical_readings (Some DEV_1) store_scenario
          = (Returns res, store_scenario)
        /\ (forall r, In r res -> is_critical r = true /\ device_id r = DEV_1))
  /\ (exists res,
        find_critical_readings None store_scenario
          = (Returns res, store_scenario)
        /\ by_timestamp_desc res).
Proof.
  assert (Hdev : DEV_1 <> []) by discriminate.
  destruct (find_critical_readings_spec store_scenario) as [Hsome Hnone].
  split; [exact Hdev | ].
  split; [exact store_scenario_consistent | ].
  split.
  - destruct (Hsome DEV_1 Hdev)
      as (res & listed & Hrun & _ & _ & Hcrit & Hown & _).
    exists res. split; [exact Hrun | ].
    intros r Hr. split.
    + exact (proj1 (Hcrit r Hr)).
    + exact (Hown store_scenario_consistent r Hr).
  - destruct (Hnone None (or_introl eq_refl)) as (res & Hrun & _ & Hsorted).
    exists res. split; [exact Hrun | exact Hsorted].
Defined.

(* ================================================================== *)
(** * Further properties of the repository *)

(** ** One save, seen through the two dictionaries *)

Lemma save_readings (r : VitalReading) (s : Store) (rid : PyStr.str) :
  PyDict.get rid (_readings (snd (save r s)))
  = if PyStr.eqb rid (reading_id r) then Some r
    else PyDict.get rid (_readings s).
Proof.
  rewrite save_run; simpl.
  destruct (PyStr.eqb rid (reading_id r)) eqn:E.
  - apply PyStr_eqb_eq in E; subst rid. apply dict_get_set_same.
  - apply PyStr_eqb_neq in E. now apply dict_get_set_other.
Qed.

Lemma save_device_readings (r : VitalReading) (s : Store) (dev : PyStr.str) :
  PyDict.get dev (_device_readings (snd (save r s)))
  = if PyStr.eqb dev (device_id r)
    then Some (index_of s dev ++ [reading_id r])
    else PyDict.get dev (_device_readings s).
Proof.
  rewrite save_run; simpl.
  destruct (PyStr.eqb dev (device_id r)) eqn:E.
  - apply PyStr_eqb_eq in E; subst dev. apply dict_get_set_same.
  - apply PyStr_eqb_neq in E. now apply dict_get_set_other.
Qed.

Lemma save_index_of (r : VitalReading) (s : Store) (dev : PyStr.str) :
  index_of (snd (save r s)) dev
  = if PyStr.eqb dev (device_id r)
    then index_of s dev ++ [reading_id r]
    else index_of s dev.
Proof.
  unfold index_of at 1. rewrite save_device_readings.
  destruct (PyStr.eqb dev (device_id r)); reflexivity.
Qed.

Lemma PyStr_eqb_sym (a b : PyStr.str) : PyStr.eqb a b = PyStr.eqb b a.
Proof.
  destruct (PyStr.eqb a b) eqn:E.
  - apply PyStr_eqb_eq in E; subst. now rewrite PyStr_eqb_refl.
  - apply PyStr_eqb_neq in E. symmetry. apply PyStr_eqb_neq. congruence.
Qed.

Lemma saved_snoc (rs : list VitalReading) (r : VitalReading) :
  saved (rs ++ [r]) = snd (save r (saved rs)).
Proof. unfold saved. now rewrite fold_left_app. Qed.

Lemma of_device_snoc (dev : PyStr.str) (rs : list VitalReading)
    (r : VitalReading) :
  of_device dev (rs ++ [r])
  = if PyStr.eqb dev (device_id r) then of_device dev rs ++ [r]
    else of_device dev rs.
Proof.
  unfold of_device. rewrite filter_app; simpl.
  rewrite (PyStr_eqb_sym (device_id r) dev).
  destruct (PyStr.eqb dev (device_id r)); [reflexivity | apply app_nil_r].
Qed.

(** ** A run of saves on a new repository *)

Lemma saved_device_readings (rs : list VitalReading) (dev : PyStr.str) :
  PyDict.get dev (_device_readings (saved rs))
  = match of_device dev rs with
    | [] => None
    | _ :: _ => Some (map reading_id (of_device dev rs))
    end.
Proof.
  induction rs as [ | r rs IH] using rev_ind; [reflexivity | ].
  rewrite saved_snoc, save_device_readings, of_device_snoc.
  destruct (PyStr.eqb dev (device_id r)) eqn:E; [ | exact IH].
  unfold index_of. rewrite IH.
  destruct (of_device dev rs) as [ | r0 l]; simpl; [reflexivity | ].
  now rewrite map_app.
Qed.

Lemma saved_index_of (rs : list VitalReading) (dev : PyStr.str) :
  index_of (saved rs) dev = map reading_id (of_device dev rs).
Proof.
  unfold index_of. rewrite saved_device_readings.
  destruct (of_device dev rs); reflexivity.
Qed.

Lemma saved_readings (rs : list VitalReading) (rid : PyStr.str) :
  PyDict.get rid (_readings (saved rs))
  = find (fun r => PyStr.eqb (reading_id r) rid) (rev rs).
Proof.
  induction rs as [ | r rs IH] using rev_ind; [reflexivity | ].
  rewrite saved_snoc, save_readings, rev_app_distr; simpl.
  rewrite (PyStr_eqb_sym (reading_id r) rid).
  destruct (PyStr.eqb rid (reading_id r)); [reflexivity | exact IH].
Qed.

Lemma saved_readings_None (rs : list VitalReading) (rid : PyStr.str) :
  PyDict.get rid (_readings (saved rs)) = None <->
  ~ In rid (map reading_id rs).
Proof.
  rewrite saved_readings. split.
  - intros H Hin. apply in_map_iff in Hin. destruct Hin as (r & <- & Hr).
    apply in_rev in Hr.
    pose proof (find_none _ _ H r Hr) as Hf. simpl in Hf.
    now rewrite PyStr_eqb_refl in Hf.
  - intros H. destruct (find _ _) as [r | ] eqn:E; [ | reflexivity].
    apply find_some in E. destruct E as [Hr E].
    apply PyStr_eqb_eq in E. exfalso. apply H.
    rewrite <- E. apply in_map. now apply in_rev.
Qed.

(** X1.  After any run of saves on a new repository, the index list of a
    device is the ids of the readings saved for that device, in the order
    of the saves (reused ids are listed again), and [count_by_device] is
    the number of those saves. *)
Theorem count_by_device_saved (rs : list VitalReading) (dev : PyStr.str) :
  index_of (saved rs) dev = map reading_id (of_device dev rs) /\
  count_by_device dev (saved rs)
  = (Returns (Z.of_nat (List.length (of_device dev rs))), saved rs).
Proof.
  split; [apply saved_index_of | ].
  rewrite count_by_device_run, saved_index_of, length_map. reflexivity.
Qed.

(** X2.  After any run of saves on a new repository, [find_by_id] returns
    the reading saved last under that id, and nothing for an id that was
    never saved: a later save with the same id replaces the earlier one. *)
Theorem find_by_id_saved (rs : list VitalReading) (rid : PyStr.str) :
  find_by_id rid (saved rs)
  = (Returns (find (fun r => PyStr.eqb (reading_id r) rid) (rev rs)),
     saved rs)
  /\ (~ In rid (map reading_id rs) ->
      find_by_id rid (saved rs) = (Returns None, saved rs)).
Proof.
  rewrite find_by_id_run. split.
  - now rewrite saved_readings.
  - intros H. apply saved_readings_None in H. now rewrite H.
Qed.

Lemma find_by_id_saved_witness :
  ~ In RID_c (map reading_id [r_first; r_second])
  /\ find_by_id RID_c (saved [r_first; r_second])
     = (Returns None, saved [r_first; r_second])
  /\ find_by_id RID_a (saved [r_first; r_second])
     = (Returns (Some r_second), saved [r_first; r_second]).
Proof.
  assert (H : ~ In RID_c (map reading_id [r_first; r_second])).
  { simpl. intros [H | [H | []]]; discriminate. }
  split; [exact H | ].
  split.
  - exact (proj2 (find_by_id_saved [r_first; r_second] RID_c) H).
  - exact (proj1 (find_by_id_saved [r_first; r_second] RID_a)).
Defined.

(** ** What every run of saves maintains *)

Lemma index_resolves_empty : index_resolves empty_store.
Proof. intros dev ids rid H; discriminate. Qed.

Lemma index_resolves_save (r : VitalReading) (s : Store) :
  index_resolves s -> index_resolves (snd (save r s)).
Proof.
  intros Hs dev ids rid Hidx Hin.
  rewrite save_readings.
  destruct (PyStr.eqb rid (reading_id r)) eqn:Erid; [now exists r | ].
  rewrite save_device_readings in Hidx.
  destruct (PyStr.eqb dev (device_id r)) eqn:Edev.
  - injection Hidx as <-.
    apply in_app_or in Hin. destruct Hin as [Hin | [<- | []]].
    + unfold index_of in Hin.
      destruct (PyDict.get dev (_device_readings s)) as [ids0 | ] eqn:E;
        [ | contradiction].
      exact (Hs dev ids0 rid E Hin).
    + now rewrite PyStr_eqb_refl in Erid.
  - exact (Hs dev ids rid Hidx Hin).
Qed.

Lemma index_resolves_saved (rs : list VitalReading) :
  index_resolves (saved rs).
Proof.
  induction rs as [ | r rs IH] using rev_ind.
  - apply index_resolves_empty.
  - rewrite saved_snoc. now apply index_resolves_save.
Qed.

Lemma store_wf_saved (rs : list VitalReading) : store_wf (saved rs).
Proof.
  induction rs as [ | r rs IH] using rev_ind.
  - apply store_wf_empty.
  - rewrite saved_snoc. now apply store_wf_save.
Qed.

Lemma lookup_all_app (m : PyDict.dict VitalReading) (a b : list PyStr.str) :
  lookup_all m (a ++ b) = lookup_all m a ++ lookup_all m b.
Proof.
  induction a as [ | rid a IH]; simpl; [reflexivity | ].
  destruct (PyDict.get rid m); simpl; now rewrite IH.
Qed.

Lemma lookup_all_set_other (m : PyDict.dict VitalReading) (k : PyStr.str)
    (v : VitalReading) (ids : list PyStr.str) :
  ~ In k ids -> lookup_all (PyDict.set k v m) ids = lookup_all m ids.
Proof.
  induction ids as [ | rid ids IH]; simpl; intros H; [reflexivity | ].
  rewrite dict_get_set_other by (intros ->; apply H; now left).
  rewrite IH by (intros Hin; apply H; now right).
  reflexivity.
Qed.

Lemma lookup_all_length (m : PyDict.dict VitalReading)
    (ids : list PyStr.str) :
  (forall rid, In rid ids -> exists r, PyDict.get rid m = Some r) ->
  List.length (lookup_all m ids) = List.length ids.
Proof.
  induction ids as [ | rid ids IH]; simpl; intros H; [reflexivity | ].
  destruct (H rid (or_introl eq_refl)) as [r ->]. simpl.
  f_equal. apply IH. intros rid' Hin. apply H. now right.
Qed.

(** No index lists an id that the reading map does not hold. *)
Lemma index_resolves_fresh (s : Store) (dev rid : PyStr.str) :
  index_resolves s -> PyDict.get rid (_readings s) = None ->
  ~ In rid (index_of s dev).
Proof.
  intros Hs Hfresh Hin. unfold index_of in Hin.
  destruct (PyDict.get dev (_device_readings s)) as [ids | ] eqn:E;
    [ | contradiction].
  destruct (Hs dev ids rid E Hin) as [r Hr]. congruence.
Qed.

Lemma save_readings_of (r : VitalReading) (s : Store) (dev : PyStr.str) :
  index_resolves s ->
  PyDict.get (reading_id r) (_readings s) = None ->
  readings_of (snd (save r s)) dev
  = if PyStr.eqb dev (device_id r) then readings_of s dev ++ [r]
    else readings_of s dev.
Proof.
  intros Hs Hfresh. unfold readings_of. rewrite save_index_of.
  rewrite save_run; simpl.
  pose proof (index_resolves_fresh s dev (reading_id r) Hs Hfresh) as Hnot.
  destruct (PyStr.eqb dev (device_id r)).
  - rewrite lookup_all_app, lookup_all_set_other by exact Hnot.
    simpl. now rewrite dict_get_set_same.
  - now apply lookup_all_set_other.
Qed.

Lemma readings_of_saved (rs : list VitalReading) (dev : PyStr.str) :
  NoDup (map reading_id rs) -> readings_of (saved rs) dev = of_device dev rs.
Proof.
  induction rs as [ | r rs IH] using rev_ind; intros Hnd; [reflexivity | ].
  rewrite map_app in Hnd; simpl in Hnd.
  assert (Hnd' : NoDup (reading_id r :: map reading_id rs)).
  { apply (Permutation_NoDup (l := map reading_id rs ++ [reading_id r]));
      [ | exact Hnd].
    symmetry. apply Permutation_cons_append. }
  inversion Hnd' as [ | ? ? Hfresh Hrest]; subst.
  rewrite saved_snoc, of_device_snoc.
  rewrite save_readings_of.
  - rewrite (IH Hrest). reflexivity.
  - apply index_resolves_saved.
  - now apply saved_readings_None.
Qed.

(** X3.  Every run of saves on a new repository, reused ids included,
    leaves both dictionaries with one entry per key and every indexed id
    present in the reading map; and each reading [find_by_id] returns
    carries the id it was asked for, is one of the saved readings, and is
    reachable through the index list of its own device. *)
Theorem saved_invariants (rs : list VitalReading) :
  store_wf (saved rs) /\
  index_resolves (saved rs) /\
  (forall rid r,
     find_by_id rid (saved rs) = (Returns (Some r), saved rs) ->
     reading_id r = rid /\ In r rs /\
     In r (readings_of (saved rs) (device_id r))).
Proof.
  split; [apply store_wf_saved | ].
  split; [apply index_resolves_saved | ].
  intros rid r H. rewrite find_by_id_run in H.
  assert (Hget : PyDict.get rid (_readings (saved rs)) = Some r)
    by congruence.
  clear H. pose proof Hget as Hfind. rewrite saved_readings in Hfind.
  apply find_some in Hfind. destruct Hfind as [Hin Heq].
  apply PyStr_eqb_eq in Heq. apply in_rev in Hin.
  split; [exact Heq | split; [exact Hin | ]].
  unfold readings_of. apply In_lookup_all.
  exists rid. split; [ | exact Hget].
  rewrite saved_index_of, <- Heq. apply in_map.
  unfold of_device. apply filter_In. split; [exact Hin | ].
  apply PyStr_eqb_refl.
Qed.

Lemma saved_invariants_witness :
  find_by_id RID_a (saved [r_first; r_second])
    = (Returns (Some r_second), saved [r_first; r_second])
  /\ In r_second (readings_of (saved [r_first; r_second]) DEV_2).
Proof.
  split; [reflexivity | ].
  apply (proj2 (proj2 (saved_invariants [r_first; r_second]))
           RID_a r_second eq_refl).
Defined.

(** X4.  When the saved readings have pairwise distinct ids,
    [find_by_device] with [limit >= 0] returns the readings saved for
    that device, most recent first with equal timestamps in the order of
    the saves, cut to the first [limit]; each of them carries that device
    id. *)
Theorem find_by_device_saved
    (rs : list VitalReading) (dev : PyStr.str) (limit : Z) :
  NoDup (map reading_id rs) ->
  0 <= limit ->
  find_by_device dev limit (saved rs)
  = (Returns
       (firstn (Z.to_nat limit) (sort_reverse timestamp (of_device dev rs))),
     saved rs)
  /\ Forall (fun r => device_id r = dev /\ In r rs)
       (firstn (Z.to_nat limit) (sort_reverse timestamp (of_device dev rs))).
Proof.
  intros Hnd Hlimit. split.
  - rewrite find_by_device_run, (readings_of_saved rs dev Hnd).
    rewrite saved_device_readings.
    destruct (of_device dev rs) as [ | r0 l] eqn:E.
    + simpl. now rewrite firstn_nil.
    + now rewrite slice_to_nonneg.
  - apply Forall_forall. intros r Hr.
    assert (Hin : In r (of_device dev rs)).
    { apply (sort_reverse_In timestamp).
      rewrite <- (firstn_skipn (Z.to_nat limit)).
      apply in_or_app. now left. }
    unfold of_device in Hin. apply filter_In in Hin.
    destruct Hin as [Hin Hdev]. apply PyStr_eqb_eq in Hdev. now split.
Qed.

Lemma find_by_device_saved_witness :
  NoDup (map reading_id [r55; r72; r130])
  /\ 0 <= 2
  /\ find_by_device DEV_1 2 (saved [r55; r72; r130])
     = (Returns [r130; r72], saved [r55; r72; r130]).
Proof.
  assert (Hnd : NoDup (map reading_id [r55; r72; r130])).
  { simpl. repeat constructor; simpl;
      intros H; repeat (destruct H as [H | H]; [discriminate | ]);
      exact H. }
  assert (Hlimit : 0 <= 2) by lia.
  split; [exact Hnd | split; [exact Hlimit | ]].
  exact (proj1 (find_by_device_saved [r55; r72; r130] DEV_1 2 Hnd Hlimit)).
Defined.

(** X5.  [save] does not de-duplicate: saving the same reading a second
    time leaves the reading map as the first save left it, but lists the
    id once more, so [count_by_device] has grown by two. *)
Theorem save_twice (s : Store) (r : VitalReading) :
  let s1 := snd (save r s) in
  let s2 := snd (save r s1) in
  _readings s2 = _readings s1 /\
  index_of s2 (device_id r)
  = index_of s (device_id r) ++ [reading_id r; reading_id r] /\
  exists n,
    count_by_device (device_id r) s = (Returns n, s) /\
    count_by_device (device_id r) s2 = (Returns (n + 2), s2).
Proof.
  simpl. split; [ | split].
  - rewrite (save_run r (snd (save r s))); simpl.
    rewrite save_run; simpl. apply dict_set_set.
  - rewrite !save_index_of, PyStr_eqb_refl, <- app_assoc. reflexivity.
  - exists (Z.of_nat (List.length (index_of s (device_id r)))).
    split; [apply count_by_device_run | ].
    rewrite count_by_device_run, !save_index_of, PyStr_eqb_refl.
    rewrite !length_app; simpl. do 2 f_equal. lia.
Qed.

(** ** The most recent reading, and how many come back *)

Lemma sort_reverse_head {A : Type} (key : A -> Z) (l : list A) :
  match sort_reverse key l with
  | [] => l = []
  | x :: _ => In x l /\ Forall (fun a => key a <= key x) l
  end.
Proof.
  pose proof (sort_reverse_perm key l) as Hperm.
  pose proof (sort_reverse_descending key l) as Hdesc.
  destruct (sort_reverse key l) as [ | x t].
  - now apply Permutation_nil in Hperm.
  - split.
    + apply (Permutation_in _ Hperm). now left.
    + apply (Permutation_Forall Hperm).
      unfold descending in Hdesc.
      inversion Hdesc as [ | ? ? _ Hx]; subst.
      constructor; [lia | exact Hx].
Qed.

Lemma sort_reverse_length {A : Type} (key : A -> Z) (l : list A) :
  List.length (sort_reverse key l) = List.length l.
Proof. apply Permutation_length, sort_reverse_perm. Qed.

Lemma readings_of_unknown (s : Store) (dev : PyStr.str) :
  PyDict.get dev (_device_readings s) = None -> readings_of s dev = [].
Proof.
  intros H. unfold readings_of, index_of. now rewrite H.
Qed.

(** [find_by_device] without the case split on the index entry. *)
Lemma find_by_device_run' (dev : PyStr.str) (limit : Z) (s : Store) :
  find_by_device dev limit s
  = (Returns (slice_to (sort_reverse timestamp (readings_of s dev)) limit), s).
Proof.
  rewrite find_by_device_run.
  destruct (PyDict.get dev (_device_readings s)) eqn:E; [reflexivity | ].
  rewrite (readings_of_unknown s dev E). simpl.
  unfold slice_to. destruct (limit <? 0); now rewrite firstn_nil.
Qed.

Lemma find_latest_by_device_run' (dev : PyStr.str) (s : Store) :
  find_latest_by_device dev s
  = (Returns (hd_error (sort_reverse timestamp (readings_of s dev))), s).
Proof.
  unfold find_latest_by_device, bind. rewrite find_by_device_run'.
  unfold ret. rewrite slice_to_nonneg by lia.
  destruct (sort_reverse timestamp (readings_of s dev)); reflexivity.
Qed.

Lemma index_resolves_count (s : Store) (dev : PyStr.str) :
  index_resolves s ->
  List.length (readings_of s dev) = List.length (index_of s dev).
Proof.
  intros Hs. unfold readings_of. apply lookup_all_length.
  intros rid Hin. unfold index_of in Hin.
  destruct (PyDict.get dev (_device_readings s)) as [ids | ] eqn:E;
    [ | contradiction].
  exact (Hs dev ids rid E Hin).
Qed.

(** X6.  For every store and device, [find_latest_by_device] returns
    nothing exactly when no reading is reachable through the device's
    index, and otherwise one of those readings whose timestamp no other
    of them exceeds. *)
Theorem find_latest_by_device_max (s : Store) (dev : PyStr.str) :
  exists latest,
    find_latest_by_device dev s = (Returns latest, s) /\
    match latest with
    | None => readings_of s dev = []
    | Some r =>
        In r (readings_of s dev) /\
        Forall (fun r' => timestamp r' <= timestamp r) (readings_of s dev)
    end.
Proof.
  eexists. split; [apply find_latest_by_device_run' | ].
  pose proof (sort_reverse_head timestamp (readings_of s dev)) as H.
  destruct (sort_reverse timestamp (readings_of s dev)); exact H.
Qed.

(** X7.  On a store whose index entries all resolve (every store built by
    saves is one), [find_by_device] with [limit >= 0] returns exactly
    [min(limit, count_by_device)] readings. *)
Theorem find_by_device_length (s : Store) (dev : PyStr.str) (limit : Z) :
  index_resolves s ->
  0 <= limit ->
  exists res n,
    find_by_device dev limit s = (Returns res, s) /\
    count_by_device dev s = (Returns n, s) /\
    Z.of_nat (List.length res) = Z.min limit n.
Proof.
  intros Hs Hlimit. do 2 eexists.
  split; [apply find_by_device_run' | ].
  split; [apply count_by_device_run | ].
  rewrite slice_to_nonneg by exact Hlimit.
  rewrite length_firstn, sort_reverse_length, (index_resolves_count s dev Hs).
  lia.
Qed.

Lemma find_by_device_length_witness :
  index_resolves store_scenario /\ 0 <= 2
  /\ exists res,
       find_by_device DEV_1 2 store_scenario = (Returns res, store_scenario)
       /\ Z.of_nat (List.length res) = Z.min 2 3.
Proof.
  assert (Hs : index_resolves store_scenario)
    by exact (index_resolves_saved [r55; r72; r130]).
  assert (Hlimit : 0 <= 2) by lia.
  split; [exact Hs | split; [exact Hlimit | ]].
  destruct (find_by_device_length store_scenario DEV_1 2 Hs Hlimit)
    as (res & n & Hres & Hn & Hlen).
  exists res. split; [exact Hres | ].
  assert (Hn3 : n = 3) by (injection Hn as <-; reflexivity).
  now rewrite <- Hn3.
Defined.

Lemma latest_after_save (s : Store) (r : VitalReading) :
  index_resolves s ->
  PyDict.get (reading_id r) (_readings s) = None ->
  Forall (fun r' => timestamp r' < timestamp r)
         (readings_of s (device_id r)) ->
  find_latest_by_device (device_id r) (snd (save r s))
  = (Returns (Some r), snd (save r s)).
Proof.
  intros Hs Hfresh Hnewer.
  rewrite find_latest_by_device_run'.
  rewrite (save_readings_of r s (device_id r) Hs Hfresh), PyStr_eqb_refl.
  pose proof (sort_reverse_head timestamp (readings_of s (device_id r) ++ [r]))
    as H.
  destruct (sort_reverse timestamp (readings_of s (device_id r) ++ [r]))
    as [ | x t].
  - destruct (readings_of s (device_id r)); discriminate.
  - destruct H as [Hin Hmax]. simpl. do 2 f_equal.
    apply in_app_or in Hin. destruct Hin as [Hin | [<- | []]];
      [ | reflexivity].
    rewrite Forall_forall in Hnewer, Hmax.
    pose proof (Hnewer x Hin).
    assert (Hr : timestamp r <= timestamp x).
    { apply Hmax. apply in_or_app. right. now left. }
    lia.
Qed.

(** X8.  Saving, under a fresh id into a store whose index entries
    resolve, a reading newer than every reading of its device makes it the
    one [find_latest_by_device] returns for that device. *)
Theorem save_newer_becomes_latest (s : Store) (r : VitalReading) :
  index_resolves s ->
  PyDict.get (reading_id r) (_readings s) = None ->
  Forall (fun r' => timestamp r' < timestamp r)
         (readings_of s (device_id r)) ->
  find_latest_by_device (device_id r) (snd (save r s))
  = (Returns (Some r), snd (save r s)).
Proof. exact (latest_after_save s r). Qed.

Lemma save_newer_becomes_latest_witness :
  index_resolves store_scenario
  /\ PyDict.get (reading_id r90) (_readings store_scenario) = None
  /\ Forall (fun r' => timestamp r' < timestamp r90)
        (readings_of store_scenario (device_id r90))
  /\ readings_of store_scenario (device_id r90) = [r55; r72; r130]
  /\ find_latest_by_device DEV_1 (snd (save r90 store_scenario))
     = (Returns (Some r90), snd (save r90 store_scenario)).
Proof.
  assert (Hs : index_resolves store_scenario)
    by exact (index_resolves_saved [r55; r72; r130]).
  assert (Hold : Forall (fun r' => timestamp r' < timestamp r90)
                   (readings_of store_scenario (device_id r90))).
  { change (readings_of store_scenario (device_id r90))
      with [r55; r72; r130].
    repeat constructor; simpl; lia. }
  split; [exact Hs | split; [reflexivity | split; [exact Hold | ]]].
  split; [reflexivity | ].
  exact (save_newer_becomes_latest store_scenario r90 Hs eq_refl Hold).
Defined.

(** X9.  Saving a reading under a fresh id, into a store whose index
    entries resolve, changes nothing for any other device: [find_by_device]
    (whatever the limit), [find_latest_by_device] and [count_by_device]
    return for it what they returned before. *)
Theorem save_other_device_unchanged
    (s : Store) (r : VitalReading) (dev : PyStr.str) :
  index_resolves s ->
  PyDict.get (reading_id r) (_readings s) = None ->
  dev <> device_id r ->
  (forall limit,
     fst (find_by_device dev limit (snd (save r s)))
     = fst (find_by_device dev limit s)) /\
  fst (find_latest_by_device dev (snd (save r s)))
  = fst (find_latest_by_device dev s) /\
  fst (count_by_device dev (snd (save r s)))
  = fst (count_by_device dev s).
Proof.
  intros Hs Hfresh Hdev. apply PyStr_eqb_neq in Hdev.
  assert (Hreadings : readings_of (snd (save r s)) dev = readings_of s dev).
  { rewrite (save_readings_of r s dev Hs Hfresh). now rewrite Hdev. }
  split; [ | split].
  - intros limit. now rewrite !find_by_device_run', Hreadings.
  - now rewrite !find_latest_by_device_run', Hreadings.
  - rewrite !count_by_device_run, save_index_of. now rewrite Hdev.
Qed.

Lemma save_other_device_unchanged_witness :
  index_resolves store_scenario
  /\ PyDict.get (reading_id r_other) (_readings store_scenario) = None
  /\ DEV_1 <> device_id r_other
  /\ fst (find_latest_by_device DEV_1 (snd (save r_other store_scenario)))
     = Returns (Some r130).
Proof.
  assert (Hs : index_resolves store_scenario)
    by exact (index_resolves_saved [r55; r72; r130]).
  assert (Hdev : DEV_1 <> device_id r_other) by discriminate.
  split; [exact Hs | split; [reflexivity | split; [exact Hdev | ]]].
  rewrite (proj1 (proj2 (save_other_device_unchanged store_scenario r_other
                           DEV_1 Hs eq_refl Hdev))).
  reflexivity.
Defined.

(** ** Negative limits *)

(** X12.  With a negative [limit], [find_by_device] drops the [-limit]
    oldest of the device's readings and returns all the others, most
    recent first: [max(0, n + limit)] readings out of [n]. *)
Theorem find_by_device_drops_oldest (s : Store) (dev : PyStr.str) (limit : Z) :
  limit < 0 ->
  exists res,
    find_by_device dev limit s = (Returns res, s) /\
    res = firstn (List.length (readings_of s dev) - Z.to_nat (- limit))
            (sort_reverse timestamp (readings_of s dev)) /\
    Z.of_nat (List.length res)
    = Z.max 0 (Z.of_nat (List.length (readings_of s dev)) + limit).
Proof.
  intros Hlimit. eexists. split; [apply find_by_device_run' | ].
  unfold slice_to.
  destruct (limit <? 0) eqn:E; [ | apply Z.ltb_ge in E; lia].
  rewrite sort_reverse_length.
  assert (Hn : Z.to_nat (Z.max 0 (Z.of_nat (List.length (readings_of s dev))
                                   + limit))
               = (List.length (readings_of s dev) - Z.to_nat (- limit))%nat)
    by lia.
  rewrite Hn. split; [reflexivity | ].
  rewrite length_firstn, sort_reverse_length. lia.
Qed.

Lemma find_by_device_drops_oldest_witness :
  -2 < 0
  /\ find_by_device DEV_1 (-2) store_scenario
     = (Returns [r130], store_scenario).
Proof.
  assert (Hlimit : -2 < 0) by lia.
  split; [exact Hlimit | ].
  destruct (find_by_device_drops_oldest store_scenario DEV_1 (-2) Hlimit)
    as (res & Hrun & Hres & _).
  rewrite Hrun, Hres. reflexivity.
Defined.

(** ** Critical readings *)

Lemma filter_rearranged {A : Type} (f : A -> bool) (xs ys : list A)
    (Hperm : Permutation xs ys) :
  Permutation (filter f xs) (filter f ys).
Proof.
  induction Hperm as [ | a l1 l2 _ IH | a b l1 | l1 l2 l3 _ IH12 _ IH23].
  - reflexivity.
  - cbn [filter]. case (f a); [apply perm_skip | ]; exact IH.
  - cbn [filter]. case (f a); case (f b);
      first [apply perm_swap | reflexivity].
  - exact (perm_trans IH12 IH23).
Qed.

Lemma readings_of_stored (s : Store) (dev : PyStr.str) (r : VitalReading) :
  In r (readings_of s dev) -> In r (PyDict.values (_readings s)).
Proof.
  intros H. apply In_lookup_all in H. destruct H as (rid & _ & Hget).
  apply dict_get_In in Hget. unfold PyDict.values.
  change r with (snd (rid, r)). now apply in_map.
Qed.

Lemma find_critical_readings_device_run (d : PyStr.str) (s : Store) :
  d <> [] ->
  find_critical_readings (Some d) s
  = (Returns
       (sort_reverse timestamp
          (filter is_critical
             (slice_to (sort_reverse timestamp (readings_of s d)) 1000))),
     s).
Proof.
  intros Hd. unfold find_critical_readings, bind.
  assert (Hgiven : device_given (Some d) = Some d)
    by (destruct d; [contradiction | reflexivity]).
  rewrite Hgiven, find_by_device_run'. reflexivity.
Qed.

(** X10.  Whatever the store and the device id, every reading that the
    device-scoped [find_critical_readings] returns is also returned by the
    unscoped one. *)
Theorem critical_of_device_among_all (s : Store) (dev : PyStr.str) :
  exists of_dev of_all,
    find_critical_readings (Some dev) s = (Returns of_dev, s) /\
    find_critical_readings None s = (Returns of_all, s) /\
    incl of_dev of_all.
Proof.
  do 2 eexists.
  split; [apply find_critical_readings_run | ].
  split; [apply find_critical_readings_run | ].
  intros r Hr. simpl.
  apply sort_reverse_In. apply sort_reverse_In in Hr.
  apply filter_In in Hr. destruct Hr as [Hr Hc].
  apply filter_In. split; [ | exact Hc].
  destruct (device_given (Some dev)) as [d | ]; [ | exact Hr].
  destruct (PyDict.get d (_device_readings s)); [ | contradiction].
  apply In_slice_to in Hr. apply sort_reverse_In in Hr.
  exact (readings_of_stored s d r Hr).
Qed.

(** X11.  For a non-empty device id with at most 1000 readings reachable
    through its index, [find_critical_readings] returns all of the
    device's critical readings: a rearrangement, most recent first, of the
    critical ones among them. *)
Theorem find_critical_readings_under_cap (s : Store) (dev : PyStr.str) :
  dev <> [] ->
  (List.length (readings_of s dev) <= 1000)%nat ->
  exists res,
    find_critical_readings (Some dev) s = (Returns res, s) /\
    Permutation res (filter is_critical (readings_of s dev)) /\
    by_timestamp_desc res.
Proof.
  intros Hdev Hcap. eexists.
  split; [now apply find_critical_readings_device_run | ].
  split; [ | apply sort_reverse_descending].
  rewrite sort_reverse_perm.
  apply filter_rearranged.
  rewrite slice_to_nonneg by lia.
  rewrite firstn_all2.
  - apply sort_reverse_perm.
  - rewrite sort_reverse_length. change (Z.to_nat 1000) with 1000%nat. lia.
Qed.

Lemma find_critical_readings_under_cap_witness :
  DEV_1 <> [] /\ (List.length (readings_of store_scenario DEV_1) <= 1000)%nat
  /\ exists res,
       find_critical_readings (Some DEV_1) store_scenario
         = (Returns res, store_scenario)
       /\ Permutation res [r55; r130].
Proof.
  assert (Hdev : DEV_1 <> []) by discriminate.
  assert (Hcap : (List.length (readings_of store_scenario DEV_1) <= 1000)%nat)
    by (simpl; lia).
  split; [exact Hdev | split; [exact Hcap | ]].
  destruct (find_critical_readings_under_cap store_scenario DEV_1 Hdev Hcap)
    as (res & Hrun & Hperm & _).
  exists res. split; [exact Hrun | exact Hperm].
Defined.

(** ** get_statistics *)

Lemma count_per_device_fold (d : PyDict.dict (list PyStr.str))
    (acc : PyDict.dict Z) (k : PyStr.str) :
  PyDict.wf d ->
  PyDict.get k
    (fold_left
       (fun acc item =>
          PyDict.set (fst item) (Z.of_nat (List.length (snd item))) acc)
       d acc)
  = match PyDict.get k d with
    | Some ids => Some (Z.of_nat (List.length ids))
    | None => PyDict.get k acc
    end.
Proof.
  unfold PyDict.wf. revert acc.
  induction d as [ | [k0 ids0] d IH]; intros acc Hwf; [reflexivity | ].
  inversion Hwf as [ | ? ? Hnotin Hwf']; subst.
  cbn [fold_left fst snd PyDict.get]. rewrite (IH _ Hwf').
  destruct (PyStr.eqb k k0) eqn:E.
  - apply PyStr_eqb_eq in E; subst k0.
    apply dict_get_None_keys in Hnotin. rewrite Hnotin.
    apply dict_get_set_same.
  - apply PyStr_eqb_neq in E.
    destruct (PyDict.get k d); [reflexivity | ].
    now apply dict_get_set_other.
Qed.

(** X13.  [get_statistics] is consistent with [count_by_device]: it does
    not change the store, and its [devices] entry maps every device that
    has an index entry to the number [count_by_device] returns for it, and
    no other device. *)
Theorem get_statistics_counts (s : Store) :
  store_wf s ->
  exists stats,
    get_statistics s = (Returns stats, s) /\
    total_devices stats = Z.of_nat (List.length (_device_readings s)) /\
    forall dev,
      match PyDict.get dev (_device_readings s) with
      | Some _ =>
          exists n, PyDict.get dev (devices stats) = Some n /\
                    count_by_device dev s = (Returns n, s)
      | None => PyDict.get dev (devices stats) = None
      end.
Proof.
  intros [_ Hwf]. eexists. split; [reflexivity | ].
  split; [reflexivity | ].
  intros dev. simpl. unfold count_per_device.
  rewrite (count_per_device_fold _ [] dev Hwf).
  destruct (PyDict.get dev (_device_readings s)) as [ids | ] eqn:E;
    [ | reflexivity].
  eexists. split; [reflexivity | ].
  rewrite count_by_device_run. unfold index_of. now rewrite E.
Qed.

Lemma get_statistics_counts_witness :
  store_wf store_scenario
  /\ exists stats,
       get_statistics store_scenario = (Returns stats, store_scenario)
       /\ PyDict.get DEV_1 (devices stats) = Some 3
       /\ PyDict.get DEV_2 (devices stats) = None.
Proof.
  assert (Hwf : store_wf store_scenario)
    by exact (store_wf_saved [r55; r72; r130]).
  split; [exact Hwf | ].
  destruct (get_statistics_counts store_scenario Hwf)
    as (stats & Hrun & _ & Hdev).
  exists stats. split; [exact Hrun | ].
  split.
  - pose proof (Hdev DEV_1) as H. simpl in H.
    destruct H as (n & Hn & Hcount).
    rewrite Hn. f_equal. now injection Hcount.
  - exact (Hdev DEV_2).
Defined.

Lemma dict_length_set {V : Type} (k : PyStr.str) (v : V)
    (d : PyDict.dict V) :
  List.length (PyDict.set k v d)
  = if PyDict.contains k d then List.length d else S (List.length d).
Proof.
  unfold PyDict.contains.
  induction d as [ | [k' v'] d IH]; simpl; [reflexivity | ].
  destruct (PyStr.eqb k k'); simpl; [reflexivity | ].
  rewrite IH. destruct (PyDict.get k d); reflexivity.
Qed.

Lemma saved_readings_length (rs : list VitalReading) :
  NoDup (map reading_id rs) ->
  List.length (_readings (saved rs)) = List.length rs.
Proof.
  induction rs as [ | r rs IH] using rev_ind; intros Hnd; [reflexivity | ].
  rewrite map_app in Hnd; simpl in Hnd.
  assert (Hnd' : NoDup (reading_id r :: map reading_id rs)).
  { apply (Permutation_NoDup (l := map reading_id rs ++ [reading_id r]));
      [ | exact Hnd].
    symmetry. apply Permutation_cons_append. }
  inversion Hnd' as [ | ? ? Hfresh Hrest]; subst.
  rewrite saved_snoc, save_run; simpl.
  rewrite dict_length_set. unfold PyDict.contains.
  apply saved_readings_None in Hfresh. rewrite Hfresh.
  rewrite (IH Hrest), length_app; simpl. lia.
Qed.

(** X14.  After saving readings with pairwise distinct ids on a new
    repository, [get_statistics] reports as [total_readings] the number of
    saves, and under [devices] for each device the number of readings
    saved for it, a device without any being absent. *)
Theorem get_statistics_saved (rs : list VitalReading) :
  NoDup (map reading_id rs) ->
  exists stats,
    get_statistics (saved rs) = (Returns stats, saved rs) /\
    total_readings stats = Z.of_nat (List.length rs) /\
    forall dev,
      PyDict.get dev (devices stats)
      = match of_device dev rs with
        | [] => None
        | l => Some (Z.of_nat (List.length l))
        end.
Proof.
  intros Hnd. eexists. split; [reflexivity | ].
  split.
  - simpl. now rewrite saved_readings_length.
  - intros dev. simpl. unfold count_per_device.
    rewrite (count_per_device_fold _ [] dev (proj2 (store_wf_saved rs))).
    rewrite saved_device_readings.
    destruct (of_device dev rs); [reflexivity | ].
    now rewrite length_map.
Qed.

Lemma get_statistics_saved_witness :
  NoDup (map reading_id [r55; r72; r130])
  /\ exists stats,
       get_statistics (saved [r55; r72; r130])
         = (Returns stats, saved [r55; r72; r130])
       /\ total_readings stats = 3.
Proof.
  assert (Hnd : NoDup (map reading_id [r55; r72; r130])).
  { simpl. repeat constructor; simpl;
      intros H; repeat (destruct H as [H | H]; [discriminate | ]);
      exact H. }
  split; [exact Hnd | ].
  destruct (get_statistics_saved [r55; r72; r130] Hnd)
    as (stats & Hrun & Htotal & _).
  exists stats. split; [exact Hrun | exact Htotal].
Defined.

(* ================================================================== *)
(** * Further properties of the entity and of the DTO validators *)

(** X15.  The dictionary [to_dict] gives for a successfully constructed
    reading always carries both labels: the heart-rate label is ["Low"]
    below 60, ["Normal"] from 60 to 100 and ["High"] above; the weight label
    is ["Overweight"] above 80 and ["Normal"] otherwise; and its
    [is_critical] flag is set exactly when the heart-rate label is not
    ["Normal"] or the weight label is ["Overweight"]. *)
Theorem to_dict_of_constructed (isoformat : Z -> string)
    (dev : PyStr.str) (w : PyFloat.float) (hr : Z) (rid : PyStr.str)
    (ts rec : Z) (hs0 : option HeartRateStatus.t)
    (wa0 : option WeightAlert.t) (r : VitalReading) :
  VitalReading_init dev w hr rid ts rec hs0 wa0 = Ok r ->
  dict_heart_rate_status (to_dict isoformat r)
  = Some (if hr <? 60 then "Low"%string
          else if hr <=? 100 then "Normal"%string else "High"%string) /\
  dict_weight_alert (to_dict isoformat r)
  = Some (if PyFloat.gtb w 80 then "Overweight"%string
          else "Normal"%string) /\
  (dict_is_critical (to_dict isoformat r) = true <->
   dict_heart_rate_status (to_dict isoformat r) <> Some "Normal"%string \/
   dict_weight_alert (to_dict isoformat r) = Some "Overweight"%string) /\
  dict_device_id (to_dict isoformat r) = dev /\
  dict_reading_id (to_dict isoformat r) = rid /\
  dict_timestamp (to_dict isoformat r) = isoformat ts /\
  dict_recorded_at (to_dict isoformat r) = isoformat rec.
Proof.
  intros Hinit.
  apply VitalReading_init_Ok_inv in Hinit.
  destruct Hinit as (_ & _ & _ & _ & ->).
  unfold to_dict, is_critical, _classify_weight, _classify_heart_rate; simpl.
  assert (Hcases : (hr <? 60) = true \/
                   ((hr <? 60) = false /\ (60 <=? hr) = true)).
  { destruct (hr <? 60) eqn:H60; [now left | right].
    apply Z.ltb_ge in H60. split; [reflexivity | apply Z.leb_le; lia]. }
  destruct Hcases as [-> | [-> ->]]; simpl;
    [ | destruct (hr <=? 100); simpl ];
    destruct (PyFloat.gtb w 80); simpl;
    (split; [reflexivity | ]); (split; [reflexivity | ]);
    (split; [ | repeat split ]);
    (split;
     [ intros H; try discriminate H;
       first [ left; discriminate | right; reflexivity ]
     | intros [H | H]; first [ reflexivity | discriminate H
                             | exfalso; apply H; reflexivity ] ]).
Qed.

Lemma to_dict_of_constructed_witness :
  VitalReading_init DEV_1 (PyFloat.Finite (70 # 1)) 130 RID_c 300 300
    None None = Ok r130
  /\ dict_heart_rate_status (to_dict (fun _ => EmptyString) r130)
     = Some "High"%string.
Proof.
  split; [reflexivity | ].
  exact (proj1 (to_dict_of_constructed (fun _ => EmptyString) DEV_1
                  (PyFloat.Finite (70 # 1)) 130 RID_c 300 300 None None
                  r130 eq_refl)).
Defined.

(** ** Stripping twice *)

Lemma lstrip_head (s : PyStr.str) :
  match PyStr.lstrip s with
  | [] => True
  | c :: _ => PyStr.isspace c = false
  end.
Proof.
  induction s as [ | c s IH]; simpl; [exact I | ].
  destruct (PyStr.isspace c) eqn:E; [exact IH | exact E].
Qed.

Lemma lstrip_fixed (s : PyStr.str) :
  match s with
  | [] => True
  | c :: _ => PyStr.isspace c = false
  end ->
  PyStr.lstrip s = s.
Proof.
  destruct s as [ | c s]; simpl; [reflexivity | ].
  now intros ->.
Qed.

Lemma lstrip_suffix (s : PyStr.str) :
  exists ws, s = ws ++ PyStr.lstrip s /\ forallb PyStr.isspace ws = true.
Proof.
  induction s as [ | c s (ws & Hs & Hws)]; simpl.
  - now exists [].
  - destruct (PyStr.isspace c) eqn:E.
    + exists (c :: ws). simpl. rewrite E, Hws. split; [congruence | reflexivity].
    + now exists [].
Qed.

Lemma rstrip_prefix (s : PyStr.str) :
  exists ws, s = PyStr.rstrip s ++ ws /\ forallb PyStr.isspace ws = true.
Proof.
  destruct (lstrip_suffix (rev s)) as (ws & Hs & Hws).
  exists (rev ws). split.
  - unfold PyStr.rstrip. rewrite <- rev_app_distr, <- Hs.
    now rewrite rev_involutive.
  - now rewrite forallb_rev.
Qed.

Lemma rstrip_head (s : PyStr.str) :
  match s with
  | [] => True
  | c :: _ => PyStr.isspace c = false
  end ->
  match PyStr.rstrip s with
  | [] => s = []
  | c :: _ => PyStr.isspace c = false
  end.
Proof.
  intros Hs. destruct (rstrip_prefix s) as (ws & Heq & Hws).
  destruct (PyStr.rstrip s) as [ | c t].
  - simpl in Heq. subst s. destruct ws as [ | c ws]; [reflexivity | ].
    simpl in Hws. rewrite Hs in Hws. discriminate.
  - rewrite Heq in Hs. exact Hs.
Qed.

Lemma strip_idempotent (s : PyStr.str) :
  PyStr.strip (PyStr.strip s) = PyStr.strip s.
Proof.
  unfold PyStr.strip.
  assert (Hl : PyStr.lstrip (PyStr.rstrip (PyStr.lstrip s))
               = PyStr.rstrip (PyStr.lstrip s)).
  { apply lstrip_fixed.
    pose proof (rstrip_head (PyStr.lstrip s) (lstrip_head s)) as H.
    destruct (PyStr.rstrip (PyStr.lstrip s)); [exact I | exact H]. }
  rewrite Hl. unfold PyStr.rstrip.
  rewrite rev_involutive.
  f_equal. apply lstrip_fixed. apply lstrip_head.
Qed.

(** X16.  The DTO's device-id validator returns the id stripped of
    surrounding whitespace: the result is non-empty, stripping it again
    changes nothing, and the entity's own device-id check accepts it.  It
    rejects exactly the ids that strip to nothing, which the entity
    rejects too. *)
Theorem VitalReadingDto_device_id_stripped (v : PyStr.str) :
  match VitalReadingDto_validate_device_id v with
  | Ok d =>
      d = PyStr.strip v /\ d <> [] /\ PyStr.strip d = d /\
      forall w hr rid ts rec hs wa,
        _validate_device_id (mkVitalReading d w hr rid ts rec hs wa) = Ok tt
  | ValueError msg =>
      msg = "device_id cannot be empty"%string /\ PyStr.strip v = [] /\
      forall w hr rid ts rec hs wa,
        _validate_device_id (mkVitalReading v w hr rid ts rec hs wa)
        = ValueError "Device ID cannot be empty"
  end.
Proof.
  unfold VitalReadingDto_validate_device_id, _validate_device_id; simpl.
  rewrite device_id_test.
  destruct (PyStr.truthy (PyStr.strip v)) eqn:E; simpl.
  - split; [reflexivity | ].
    split; [now apply PyStr_truthy_nonempty | ].
    split; [apply strip_idempotent | ].
    intros. rewrite device_id_test, strip_idempotent, E. reflexivity.
  - split; [reflexivity | ].
    split; [destruct (PyStr.strip v); [reflexivity | discriminate] | ].
    intros. reflexivity.
Qed.

(** X17.  The DTO's heart-rate validator and the entity's heart-rate check
    decide alike: a rate from 30 to 220 is returned unchanged and passes
    the entity, any other rate is rejected by both with the same
    message. *)
Theorem VitalReadingDto_heart_rate_agrees
    (v : Z) (dev : PyStr.str) (w : PyFloat.float) (rid : PyStr.str)
    (ts rec : Z) (hs : option HeartRateStatus.t)
    (wa : option WeightAlert.t) :
  match VitalReadingDto_validate_heart_rate v with
  | Ok v' =>
      v' = v /\ 30 <= v <= 220 /\
      _validate_heart_rate (mkVitalReading dev w v rid ts rec hs wa) = Ok tt
  | ValueError msg =>
      (v < 30 \/ 220 < v) /\
      _validate_heart_rate (mkVitalReading dev w v rid ts rec hs wa)
      = ValueError msg
  end.
Proof.
  unfold VitalReadingDto_validate_heart_rate, _validate_heart_rate; simpl.
  rewrite Z.gtb_ltb.
  destruct (v <? 30) eqn:Hlo.
  - apply Z.ltb_lt in Hlo. split; [now left | reflexivity].
  - apply Z.ltb_ge in Hlo. destruct (220 <? v) eqn:Hhi.
    + apply Z.ltb_lt in Hhi. split; [now right | reflexivity].
    + apply Z.ltb_ge in Hhi. repeat split; lia.
Qed.

(* ================================================================== *)
(** * Properties of the command and query handlers *)

(** The classifications a successful construction leaves. *)
Lemma constructed_labels
    (dev : PyStr.str) (w : PyFloat.float) (hr : Z) (rid : PyStr.str)
    (ts rec : Z) (hs0 : option HeartRateStatus.t)
    (wa0 : option WeightAlert.t) (r : VitalReading) :
  VitalReading_init dev w hr rid ts rec hs0 wa0 = Ok r ->
  (exists status,
     heart_rate_status r = Some status /\
     HeartRateStatus.value status = heart_rate_label hr) /\
  (exists alert,
     weight_alert r = Some alert /\
     WeightAlert.value alert = weight_label w) /\
  device_id r = dev /\ weight_kg r = w /\ heart_rate_bpm r = hr /\
  reading_id r = rid /\ timestamp r = ts /\ recorded_at r = rec.
Proof.
  intros Hinit.
  apply VitalReading_init_Ok_inv in Hinit.
  destruct Hinit as (_ & _ & _ & _ & ->).
  split; [ | split; [ | apply classified_raw_fields]].
  - unfold _classify_weight, _classify_heart_rate, heart_rate_label; simpl.
    destruct (hr <? 60) eqn:H60; simpl.
    + destruct (PyFloat.gtb w 80); eexists; split; reflexivity.
    + apply Z.ltb_ge in H60.
      assert (Hge : (60 <=? hr) = true) by (apply Z.leb_le; lia).
      rewrite Hge; simpl.
      destruct (hr <=? 100); simpl; destruct (PyFloat.gtb w 80);
        eexists; split; reflexivity.
  - unfold _classify_weight, _classify_heart_rate, weight_label; simpl.
    destruct (hr <? 60); [ | destruct ((60 <=? hr) && (hr <=? 100))];
      simpl; destruct (PyFloat.gtb w 80); eexists; split; reflexivity.
Qed.

Lemma readings_labelled_save (r : VitalReading) (s : Store) :
  readings_labelled s ->
  heart_rate_status r <> None /\ weight_alert r <> None ->
  readings_labelled (snd (save r s)).
Proof.
  intros Hs Hr rid r' Hget. rewrite save_readings in Hget.
  destruct (PyStr.eqb rid (reading_id r)).
  - now injection Hget as <-.
  - exact (Hs rid r' Hget).
Qed.

Section HandlerFacts.
Variable isoformat : Z -> string.
Variable stdout_encodes : PyStr.str -> bool.
Variable encode_error : PyStr.str -> PyStr.str.

Lemma record_handle_run
    (uuid4 : PyStr.str) (t1 t2 : Z)
    (command : RecordVitalReadingCommand.t) (s : Store) (r : VitalReading) :
  VitalReading_init
    (RecordVitalReadingCommand.device_id command)
    (RecordVitalReadingCommand.weight_kg command)
    (RecordVitalReadingCommand.heart_rate_bpm command)
    uuid4 t1 t2 None None = Ok r ->
  RecordVitalReadingCommandHandler_handle isoformat stdout_encodes
    encode_error uuid4 t1 t2 command s
  = (if stdout_encodes (saved_line r)
     then Done
       (mkRecordedReading uuid4
          (RecordVitalReadingCommand.device_id command)
          (RecordVitalReadingCommand.weight_kg command)
          (RecordVitalReadingCommand.heart_rate_bpm command)
          (heart_rate_label (RecordVitalReadingCommand.heart_rate_bpm command))
          (weight_label (RecordVitalReadingCommand.weight_kg command))
          (is_critical r) (requires_medical_attention r) (isoformat t1))
     else Raised (RaisedUnicodeEncodeError (encode_error (saved_line r))),
     snd (save r s)).
Proof.
  intros Hinit.
  destruct (constructed_labels _ _ _ _ _ _ _ _ r Hinit)
    as ((status & Hstatus & Hsl) & (alert & Halert & Hal)
        & Hdev & Hw & Hhr & Hrid & Hts & _).
  unfold RecordVitalReadingCommandHandler_handle, await_save, hbind,
    construct.
  rewrite Hinit. unfold await. rewrite save_run.
  destruct (stdout_encodes (saved_line r)); [ | reflexivity].
  unfold dot_value, hret. simpl.
  rewrite Hstatus, Halert, Hsl, Hal, Hdev, Hw, Hhr, Hrid, Hts.
  reflexivity.
Qed.

Lemma record_handle_rejected
    (uuid4 : PyStr.str) (t1 t2 : Z)
    (command : RecordVitalReadingCommand.t) (s : Store) (msg : string) :
  VitalReading_init
    (RecordVitalReadingCommand.device_id command)
    (RecordVitalReadingCommand.weight_kg command)
    (RecordVitalReadingCommand.heart_rate_bpm command)
    uuid4 t1 t2 None None = ValueError msg ->
  RecordVitalReadingCommandHandler_handle isoformat stdout_encodes
    encode_error uuid4 t1 t2 command s
  = (Raised (RaisedValueError msg), s).
Proof.
  intros Hinit.
  unfold RecordVitalReadingCommandHandler_handle, hbind, construct.
  now rewrite Hinit.
Qed.

Lemma device_status_run (dev : PyStr.str) (s : Store) :
  index_resolves s ->
  readings_labelled s ->
  match hd_error (sort_reverse timestamp (readings_of s dev)) with
  | None =>
      GetDeviceStatusQueryHandler_handle isoformat dev s = (Done None, s) /\
      index_of s dev = []
  | Some latest =>
      exists status alert,
        heart_rate_status latest = Some status /\
        weight_alert latest = Some alert /\
        GetDeviceStatusQueryHandler_handle isoformat dev s
        = (Done (Some
             (mkDeviceStatusReport dev true (isoformat (timestamp latest))
                (Z.of_nat (List.length (index_of s dev)))
                (mkCurrentStatus (weight_kg latest) (heart_rate_bpm latest)
                   (HeartRateStatus.value status) (WeightAlert.value alert)
                   (is_critical latest) (requires_medical_attention latest))
                (to_dict isoformat latest))), s) /\
        (1 <= List.length (index_of s dev))%nat
  end.
Proof.
  intros Hres Hlab.
  unfold GetDeviceStatusQueryHandler_handle, hbind, await.
  rewrite find_latest_by_device_run'.
  pose proof (sort_reverse_head timestamp (readings_of s dev)) as Hhead.
  pose proof (index_resolves_count s dev Hres) as Hcount.
  destruct (sort_reverse timestamp (readings_of s dev)) as [ | latest t];
    simpl.
  - split; [reflexivity | ].
    rewrite Hhead in Hcount. simpl in Hcount.
    destruct (index_of s dev); [reflexivity | discriminate].
  - destruct Hhead as [Hin _].
    assert (Hlen : (1 <= List.length (index_of s dev))%nat).
    { rewrite <- Hcount. destruct (readings_of s dev); [contradiction | ].
      simpl. lia. }
    apply In_lookup_all in Hin. destruct Hin as (rid & _ & Hget).
    destruct (Hlab rid latest Hget) as [Hs Ha].
    destruct (heart_rate_status latest) as [status | ] eqn:Es;
      [ | congruence].
    destruct (weight_alert latest) as [alert | ] eqn:Ea; [ | congruence].
    exists status, alert.
    split; [reflexivity | split; [reflexivity | split; [ | exact Hlen]]].
    rewrite count_by_device_run. unfold dot_value, hret.
    reflexivity.
Qed.

End HandlerFacts.

(** X18.  The command handler ends in one of three ways.  When the
    constructor raises [ValueError] the handler raises it and the store is
    as it was.  Otherwise the reading is saved, and [find_by_id] of the new
    id finds it; then, if standard output cannot encode the line [save]
    prints, the handler raises that [UnicodeEncodeError] with the reading
    stored, and else it returns the dictionary of the new id, the three
    inputs, the two labels, the two flags and the timestamp.  It raises
    neither [KeyError] nor [AttributeError]. *)
Theorem record_handle_outcome (isoformat : Z -> string)
    (stdout_encodes : PyStr.str -> bool)
    (encode_error : PyStr.str -> PyStr.str)
    (uuid4 : PyStr.str) (t1 t2 : Z)
    (command : RecordVitalReadingCommand.t) (s : Store) :
  match VitalReading_init
          (RecordVitalReadingCommand.device_id command)
          (RecordVitalReadingCommand.weight_kg command)
          (RecordVitalReadingCommand.heart_rate_bpm command)
          uuid4 t1 t2 None None with
  | ValueError msg =>
      RecordVitalReadingCommandHandler_handle isoformat stdout_encodes
        encode_error uuid4 t1 t2 command s
      = (Raised (RaisedValueError msg), s)
  | Ok r =>
      exists s',
        save r s = (Returns r, s') /\
        find_by_id uuid4 s' = (Returns (Some r), s') /\
        RecordVitalReadingCommandHandler_handle isoformat stdout_encodes
          encode_error uuid4 t1 t2 command s
        = (if stdout_encodes (saved_line r)
           then Done
             (mkRecordedReading uuid4
                (RecordVitalReadingCommand.device_id command)
                (RecordVitalReadingCommand.weight_kg command)
                (RecordVitalReadingCommand.heart_rate_bpm command)
                (heart_rate_label
                   (RecordVitalReadingCommand.heart_rate_bpm command))
                (weight_label (RecordVitalReadingCommand.weight_kg command))
                (is_critical r) (requires_medical_attention r)
                (isoformat t1))
           else Raised
                  (RaisedUnicodeEncodeError (encode_error (saved_line r))),
           s')
  end.
Proof.
  destruct (VitalReading_init _ _ _ uuid4 t1 t2 None None) as [r | msg]
    eqn:Hinit.
  - exists (snd (save r s)).
    split; [rewrite save_run; reflexivity | ].
    split.
    + destruct (constructed_labels _ _ _ _ _ _ _ _ r Hinit)
        as (_ & _ & _ & _ & _ & Hrid & _).
      rewrite find_by_id_run, save_readings, <- Hrid, PyStr_eqb_refl.
      reflexivity.
    + exact (record_handle_run isoformat stdout_encodes encode_error
               uuid4 t1 t2 command s r Hinit).
  - exact (record_handle_rejected isoformat stdout_encodes encode_error
             uuid4 t1 t2 command s msg Hinit).
Qed.

(** X19.  On a store whose index entries resolve and whose readings are
    classified, the device-status handler never raises and leaves the
    store unchanged; it returns nothing exactly when [count_by_device] is
    0, and otherwise the report of the reading [find_latest_by_device]
    returns: the device id asked for, [is_active] true, that reading's
    timestamp as [last_contact], [total_readings] equal to
    [count_by_device] and at least 1, a [current_status] of that
    reading's weight, heart rate, two labels and two flags, and its
    [to_dict] as [latest_reading]. *)
Theorem device_status_outcome (isoformat : Z -> string)
    (s : Store) (dev : PyStr.str) :
  index_resolves s ->
  readings_labelled s ->
  exists report,
    GetDeviceStatusQueryHandler_handle isoformat dev s = (Done report, s) /\
    match report with
    | None => count_by_device dev s = (Returns 0, s)
    | Some rep =>
        exists latest status alert n,
          find_latest_by_device dev s = (Returns (Some latest), s) /\
          heart_rate_status latest = Some status /\
          weight_alert latest = Some alert /\
          count_by_device dev s = (Returns n, s) /\
          1 <= n /\
          rep = mkDeviceStatusReport dev true
                  (isoformat (timestamp latest)) n
                  (mkCurrentStatus
                     (weight_kg latest) (heart_rate_bpm latest)
                     (HeartRateStatus.value status)
                     (WeightAlert.value alert)
                     (is_critical latest)
                     (requires_medical_attention latest))
                  (to_dict isoformat latest)
    end.
Proof.
  intros Hres Hlab.
  pose proof (device_status_run isoformat dev s Hres Hlab) as H.
  rewrite find_latest_by_device_run', count_by_device_run.
  destruct (hd_error (sort_reverse timestamp (readings_of s dev)))
    as [latest | ].
  - destruct H as (status & alert & Hstatus & Halert & Hrun & Hlen).
    eexists. split; [exact Hrun | ].
    exists latest, status, alert,
      (Z.of_nat (List.length (index_of s dev))).
    repeat split; try assumption. lia.
  - destruct H as [Hrun Hidx].
    eexists. split; [exact Hrun | ].
    now rewrite Hidx.
Qed.

Lemma device_status_outcome_witness :
  index_resolves store_scenario /\ readings_labelled store_scenario
  /\ exists rep,
       GetDeviceStatusQueryHandler_handle (fun _ => EmptyString) DEV_1
         store_scenario = (Done (Some rep), store_scenario)
       /\ report_total_readings rep = 3.
Proof.
  assert (Hres : index_resolves store_scenario)
    by exact (index_resolves_saved [r55; r72; r130]).
  assert (Hlab : readings_labelled store_scenario).
  { unfold store_scenario.
    repeat (apply readings_labelled_save;
            [ | split; discriminate]).
    intros rid r H; discriminate. }
  split; [exact Hres | split; [exact Hlab | ]].
  destruct (device_status_outcome (fun _ => EmptyString) store_scenario DEV_1
              Hres Hlab) as (report & Hrun & Hrep).
  destruct report as [rep | ].
  - exists rep. split; [exact Hrun | ].
    destruct Hrep as (latest & status & alert & n & _ & _ & _ & Hcount
                      & _ & ->).
    simpl. now injection Hcount.
  - discriminate Hrep.
Defined.

Lemma history_handle_run (isoformat : Z -> string)
    (query : GetVitalHistoryQuery.t) (s : Store) :
  GetVitalHistoryQueryHandler_handle isoformat query s
  = (Done
       (map (to_dict isoformat)
          (slice_to
             (sort_reverse timestamp
                (readings_of s (GetVitalHistoryQuery.device_id query)))
             (GetVitalHistoryQuery.limit query))), s).
Proof.
  unfold GetVitalHistoryQueryHandler_handle, hbind, await.
  now rewrite find_by_device_run'.
Qed.

(** X20.  The history handler never raises and leaves the store unchanged:
    it returns the dictionary of each reading [find_by_device] returns, in
    the same order; with [limit >= 0] on a store whose index entries
    resolve, that is [min(limit, count_by_device)] dictionaries. *)
Theorem history_handle_outcome (isoformat : Z -> string)
    (query : GetVitalHistoryQuery.t) (s : Store) :
  exists readings,
    find_by_device (GetVitalHistoryQuery.device_id query)
      (GetVitalHistoryQuery.limit query) s = (Returns readings, s) /\
    GetVitalHistoryQueryHandler_handle isoformat query s
    = (Done (map (to_dict isoformat) readings), s) /\
    (index_resolves s -> 0 <= GetVitalHistoryQuery.limit query ->
     exists n,
       count_by_device (GetVitalHistoryQuery.device_id query) s
       = (Returns n, s) /\
       Z.of_nat (List.length (map (to_dict isoformat) readings))
       = Z.min (GetVitalHistoryQuery.limit query) n).
Proof.
  eexists. split; [apply find_by_device_run' | ].
  split; [apply history_handle_run | ].
  intros Hres Hlimit. eexists. split; [apply count_by_device_run | ].
  rewrite length_map, slice_to_nonneg by exact Hlimit.
  rewrite length_firstn, sort_reverse_length, (index_resolves_count s _ Hres).
  lia.
Qed.

Lemma history_handle_outcome_witness :
  index_resolves store_scenario /\ 0 <= 2
  /\ exists result,
       GetVitalHistoryQueryHandler_handle (fun _ => EmptyString)
         (GetVitalHistoryQuery.mk DEV_1 2) store_scenario
       = (Done result, store_scenario)
       /\ Z.of_nat (List.length result) = 2.
Proof.
  assert (Hres : index_resolves store_scenario)
    by exact (index_resolves_saved [r55; r72; r130]).
  assert (Hlimit : 0 <= 2) by lia.
  split; [exact Hres | split; [exact Hlimit | ]].
  destruct (history_handle_outcome (fun _ => EmptyString)
              (GetVitalHistoryQuery.mk DEV_1 2) store_scenario)
    as (readings & _ & Hrun & Hlen).
  eexists. split; [exact Hrun | ].
  destruct (Hlen Hres Hlimit) as (n & Hn & ->).
  injection Hn as <-. reflexivity.
Defined.

(** X21.  Recording a valid reading through the command handler and then
    asking for the device's status: if the store's index entries resolve
    and its readings are classified, the new id is fresh and the new
    timestamp is later than those of the device's readings, then in the
    store the command handler leaves (whether or not its [print] could be
    encoded) the status handler reports the new reading as the latest and
    a [total_readings] one greater than [count_by_device] was before. *)
Theorem record_then_status (isoformat : Z -> string)
    (stdout_encodes : PyStr.str -> bool)
    (encode_error : PyStr.str -> PyStr.str)
    (uuid4 : PyStr.str) (t1 t2 : Z)
    (command : RecordVitalReadingCommand.t) (s : Store) (r : VitalReading) :
  index_resolves s ->
  readings_labelled s ->
  PyDict.get uuid4 (_readings s) = None ->
  VitalReading_init
    (RecordVitalReadingCommand.device_id command)
    (RecordVitalReadingCommand.weight_kg command)
    (RecordVitalReadingCommand.heart_rate_bpm command)
    uuid4 t1 t2 None None = Ok r ->
  Forall (fun r' => timestamp r' < t1)
         (readings_of s (RecordVitalReadingCommand.device_id command)) ->
  let s' :=
    snd (RecordVitalReadingCommandHandler_handle isoformat stdout_encodes
           encode_error uuid4 t1 t2 command s) in
  exists rep n,
    GetDeviceStatusQueryHandler_handle isoformat
      (RecordVitalReadingCommand.device_id command) s'
    = (Done (Some rep), s') /\
    count_by_device (RecordVitalReadingCommand.device_id command) s
    = (Returns n, s) /\
    report_total_readings rep = n + 1 /\
    report_latest_reading rep = to_dict isoformat r /\
    report_last_contact rep = isoformat t1.
Proof.
  intros Hres Hlab Hfresh Hinit Hnewer. simpl.
  rewrite (record_handle_run isoformat stdout_encodes encode_error
             uuid4 t1 t2 command s r Hinit); simpl.
  destruct (constructed_labels _ _ _ _ _ _ _ _ r Hinit)
    as ((status & Hstatus & _) & (alert & Halert & _)
        & Hdev & _ & _ & Hrid & Hts & _).
  rewrite <- Hrid in Hfresh. rewrite <- Hdev in *. rewrite <- Hts in Hnewer.
  assert (Hres' : index_resolves (snd (save r s)))
    by now apply index_resolves_save.
  assert (Hlab' : readings_labelled (snd (save r s))).
  { apply readings_labelled_save; [exact Hlab | ].
    rewrite Hstatus, Halert. split; discriminate. }
  pose proof (device_status_run isoformat (device_id r) (snd (save r s))
                Hres' Hlab') as Hrun.
  pose proof (latest_after_save s r Hres Hfresh Hnewer) as Hlatest.
  rewrite find_latest_by_device_run' in Hlatest.
  injection Hlatest as Hhd. rewrite Hhd in Hrun.
  destruct Hrun as (status' & alert' & _ & _ & Hrun & _).
  do 2 eexists. split; [exact Hrun | ].
  split; [apply count_by_device_run | ].
  simpl. rewrite save_index_of, PyStr_eqb_refl, length_app; simpl.
  rewrite Hts. repeat split. lia.
Qed.

Lemma store_scenario_labelled : readings_labelled store_scenario.
Proof.
  unfold store_scenario.
  repeat (apply readings_labelled_save; [ | split; discriminate]).
  intros rid r H; discriminate.
Qed.

Lemma store_scenario_older (t : Z) :
  300 < t ->
  Forall (fun r' => timestamp r' < t) (readings_of store_scenario DEV_1).
Proof.
  intros Ht. change (readings_of store_scenario DEV_1) with [r55; r72; r130].
  repeat constructor; simpl; lia.
Qed.

Lemma record_then_status_witness :
  index_resolves store_scenario /\ readings_labelled store_scenario
  /\ PyDict.get RID_d (_readings store_scenario) = None
  /\ VitalReading_init DEV_1 (PyFloat.Finite (70 # 1)) 90 RID_d 400 400
       None None = Ok r90
  /\ Forall (fun r' => timestamp r' < 400)
        (readings_of store_scenario DEV_1)
  /\ exists rep,
       GetDeviceStatusQueryHandler_handle (fun _ => EmptyString) DEV_1
         (snd (RecordVitalReadingCommandHandler_handle (fun _ => EmptyString)
                 utf8_encodes (fun text => text) RID_d 400 400 command_r90
                 store_scenario))
       = (Done (Some rep),
          snd (RecordVitalReadingCommandHandler_handle (fun _ => EmptyString)
                 utf8_encodes (fun text => text) RID_d 400 400 command_r90
                 store_scenario))
       /\ report_total_readings rep = 3 + 1
       /\ report_latest_reading rep = to_dict (fun _ => EmptyString) r90.
Proof.
  assert (Hres : index_resolves store_scenario)
    by exact (index_resolves_saved [r55; r72; r130]).
  assert (Hold : Forall (fun r' => timestamp r' < 400)
                   (readings_of store_scenario DEV_1))
    by (apply store_scenario_older; lia).
  split; [exact Hres | ].
  split; [exact store_scenario_labelled | ].
  split; [reflexivity | split; [reflexivity | split; [exact Hold | ]]].
  destruct (record_then_status (fun _ => EmptyString) utf8_encodes
              (fun text => text) RID_d 400 400 command_r90 store_scenario r90
              Hres store_scenario_labelled eq_refl eq_refl Hold)
    as (rep & n & Hrun & Hn & Htotal & Hlatest & _).
  exists rep. split; [exact Hrun | ].
  split; [ | exact Hlatest].
  rewrite Htotal. f_equal. now injection Hn.
Defined.

(* ================================================================== *)
(** * Properties of the endpoints *)

(** X22.  [record_vital_reading] ends in one of three ways.  When the
    entity rejects the input it raises [HTTPException] 400 with the
    constructor's message as detail, and the repository is unchanged.
    Otherwise the reading is saved; then, if standard output cannot encode
    the line [save] prints, it raises [HTTPException] 400 with that
    [UnicodeEncodeError]'s text as detail, the reading staying stored; and
    else it returns [success] true, the fixed message, the handler's
    result as [data] and the instant of the response.  It never raises the
    500. *)
Theorem record_vital_reading_outcome
    (isoformat : Z -> string) (repr : PyStr.str -> PyStr.str)
    (stdout_encodes : PyStr.str -> bool)
    (encode_error : PyStr.str -> PyStr.str)
    (uuid4 : PyStr.str) (t1 t2 now : Z)
    (dto : VitalReadingDto.t) (s : Store) :
  let command :=
    RecordVitalReadingCommand.mk
      (VitalReadingDto.device_id dto) (VitalReadingDto.weight_kg dto)
      (VitalReadingDto.heart_rate_bpm dto) in
  match VitalReading_init
          (VitalReadingDto.device_id dto) (VitalReadingDto.weight_kg dto)
          (VitalReadingDto.heart_rate_bpm dto) uuid4 t1 t2 None None with
  | ValueError msg =>
      record_vital_reading isoformat repr stdout_encodes encode_error
        uuid4 t1 t2 now dto s
      = (HTTPException 400 (PyStr.of_string msg), s)
  | Ok r =>
      if stdout_encodes (saved_line r)
      then
        exists result,
          RecordVitalReadingCommandHandler_handle isoformat stdout_encodes
            encode_error uuid4 t1 t2 command s
          = (Done result, snd (save r s)) /\
          result
          = mkRecordedReading uuid4
              (VitalReadingDto.device_id dto) (VitalReadingDto.weight_kg dto)
              (VitalReadingDto.heart_rate_bpm dto)
              (heart_rate_label (VitalReadingDto.heart_rate_bpm dto))
              (weight_label (VitalReadingDto.weight_kg dto))
              (is_critical r) (requires_medical_attention r)
              (isoformat t1) /\
          record_vital_reading isoformat repr stdout_encodes encode_error
            uuid4 t1 t2 now dto s
          = (Returned
               (mkRecordResponse true "Vital reading recorded successfully"
                  result (isoformat now)),
             snd (save r s))
      else
        record_vital_reading isoformat repr stdout_encodes encode_error
          uuid4 t1 t2 now dto s
        = (HTTPException 400 (encode_error (saved_line r)), snd (save r s))
  end.
Proof.
  simpl. unfold record_vital_reading.
  destruct (VitalReading_init _ _ _ uuid4 t1 t2 None None) as [r | msg]
    eqn:Hinit.
  - rewrite (record_handle_run isoformat stdout_encodes encode_error
               uuid4 t1 t2
               (RecordVitalReadingCommand.mk
                  (VitalReadingDto.device_id dto)
                  (VitalReadingDto.weight_kg dto)
                  (VitalReadingDto.heart_rate_bpm dto)) s r Hinit).
    destruct (stdout_encodes (saved_line r)); [ | reflexivity].
    eexists. split; [reflexivity | ]. split; reflexivity.
  - rewrite (record_handle_rejected isoformat stdout_encodes encode_error
               uuid4 t1 t2
               (RecordVitalReadingCommand.mk
                  (VitalReadingDto.device_id dto)
                  (VitalReadingDto.weight_kg dto)
                  (VitalReadingDto.heart_rate_bpm dto)) s msg Hinit).
    reflexivity.
Qed.

(** A device id made of one lone surrogate passes the entity (it is not
    whitespace), is saved, and then fails to print on a UTF-8 standard
    output: the endpoint answers 400 with the reading stored. *)
Example record_vital_reading_surrogate :
  record_vital_reading (fun _ => EmptyString) (fun k => k) utf8_encodes
    (fun text => text) RID_a 100 100 0
    (VitalReadingDto.mk DEV_surrogate (PyFloat.Finite (70 # 1)) 72)
    empty_store
  = (HTTPException 400
       (saved_line
          (mkVitalReading DEV_surrogate (PyFloat.Finite (70 # 1)) 72 RID_a
             100 100 (Some HeartRateStatus.NORMAL)
             (Some WeightAlert.NORMAL))),
     saved [mkVitalReading DEV_surrogate (PyFloat.Finite (70 # 1)) 72 RID_a
              100 100 (Some HeartRateStatus.NORMAL)
              (Some WeightAlert.NORMAL)]).
Proof. reflexivity. Qed.

(** X23.  On a repository whose index entries resolve and whose readings
    are classified, [get_device_status] raises the 404 exactly when
    [count_by_device] is 0 for the device and otherwise returns the
    handler's report; it never raises the 500 and never changes the
    repository. *)
Theorem get_device_status_outcome
    (isoformat : Z -> string) (repr : PyStr.str -> PyStr.str)
    (now : Z) (dev : PyStr.str) (s : Store) :
  index_resolves s ->
  readings_labelled s ->
  exists n,
    count_by_device dev s = (Returns n, s) /\
    if n =? 0
    then get_device_status isoformat repr now dev s
         = (HTTPException 404
              (PyStr.of_string "Device " ++ dev
               ++ PyStr.of_string " not found or has no readings"), s)
    else exists rep,
           GetDeviceStatusQueryHandler_handle isoformat dev s
           = (Done (Some rep), s) /\
           get_device_status isoformat repr now dev s
           = (Returned (mkStatusResponse true rep (isoformat now)), s) /\
           report_total_readings rep = n.
Proof.
  intros Hres Hlab.
  pose proof (device_status_run isoformat dev s Hres Hlab) as H.
  eexists. split; [apply count_by_device_run | ].
  unfold get_device_status.
  destruct (hd_error (sort_reverse timestamp (readings_of s dev)))
    as [latest | ].
  - destruct H as (status & alert & _ & _ & Hrun & Hlen).
    destruct (Z.of_nat (List.length (index_of s dev)) =? 0) eqn:E;
      [apply Z.eqb_eq in E; lia | ].
    eexists. split; [exact Hrun | ]. rewrite Hrun. split; reflexivity.
  - destruct H as [Hrun Hidx]. rewrite Hidx, Hrun. reflexivity.
Qed.

Lemma get_device_status_outcome_witness :
  index_resolves store_scenario /\ readings_labelled store_scenario
  /\ (exists rep,
        get_device_status (fun _ => EmptyString) (fun k => k) 0 DEV_1
          store_scenario
        = (Returned (mkStatusResponse true rep EmptyString), store_scenario)
        /\ report_total_readings rep = 3)
  /\ get_device_status (fun _ => EmptyString) (fun k => k) 0 DEV_2
       store_scenario
     = (HTTPException 404
          (PyStr.of_string "Device DEV-2 not found or has no readings"),
        store_scenario).
Proof.
  assert (Hres : index_resolves store_scenario)
    by exact (index_resolves_saved [r55; r72; r130]).
  pose proof store_scenario_labelled as Hlab.
  split; [exact Hres | split; [exact Hlab | split]].
  - destruct (get_device_status_outcome (fun _ => EmptyString) (fun k => k)
                0 DEV_1 store_scenario Hres Hlab) as (n & Hn & H).
    injection Hn as <-. simpl in H.
    destruct H as (rep & _ & Hrun & Htotal).
    exists rep. split; [exact Hrun | exact Htotal].
  - destruct (get_device_status_outcome (fun _ => EmptyString) (fun k => k)
                0 DEV_2 store_scenario Hres Hlab) as (n & Hn & H).
    injection Hn as <-. exact H.
Defined.

(** X24.  [get_vital_history] never raises, whatever the limit, and never
    changes the repository: it returns the handler's list with
    [readings_count] its length, which for [limit >= 0] on a repository
    whose index entries resolve is [min(limit, count_by_device)]. *)
Theorem get_vital_history_outcome
    (isoformat : Z -> string) (repr : PyStr.str -> PyStr.str)
    (now : Z) (dev : PyStr.str) (limit : Z) (s : Store) :
  exists body,
    get_vital_history isoformat repr now dev limit s = (Returned body, s) /\
    history_success body = true /\
    history_device_id (history_data body) = dev /\
    history_readings_count (history_data body)
    = Z.of_nat (List.length (history_readings (history_data body))) /\
    GetVitalHistoryQueryHandler_handle isoformat
      (GetVitalHistoryQuery.mk dev limit) s
    = (Done (history_readings (history_data body)), s) /\
    (index_resolves s -> 0 <= limit ->
     exists n,
       count_by_device dev s = (Returns n, s) /\
       history_readings_count (history_data body) = Z.min limit n).
Proof.
  unfold get_vital_history. rewrite history_handle_run.
  eexists. split; [reflexivity | ]. simpl.
  repeat split.
  intros Hres Hlimit. eexists. split; [apply count_by_device_run | ].
  rewrite length_map, slice_to_nonneg by exact Hlimit.
  rewrite length_firstn, sort_reverse_length, (index_resolves_count s _ Hres).
  lia.
Qed.

Lemma get_vital_history_outcome_witness :
  index_resolves store_scenario /\ 0 <= 50
  /\ exists body,
       get_vital_history (fun _ => EmptyString) (fun k => k) 0 DEV_1 50
         store_scenario = (Returned body, store_scenario)
       /\ history_readings_count (history_data body) = 3.
Proof.
  assert (Hres : index_resolves store_scenario)
    by exact (index_resolves_saved [r55; r72; r130]).
  assert (Hlimit : 0 <= 50) by lia.
  split; [exact Hres | split; [exact Hlimit | ]].
  destruct (get_vital_history_outcome (fun _ => EmptyString) (fun k => k) 0
              DEV_1 50 store_scenario)
    as (body & Hrun & _ & _ & _ & _ & Hcount).
  exists body. split; [exact Hrun | ].
  destruct (Hcount Hres Hlimit) as (n & Hn & ->).
  injection Hn as <-. reflexivity.
Defined.

(* ================================================================== *)
(** * Two more facts about construction and paging *)

(** X25.  Every successfully constructed reading keeps its inputs as
    given (the device id is not stripped), has a heart rate from 30 to
    220, a device id with at least one character that is not whitespace,
    and a weight that is either a finite number from 0 to 300 or NaN:
    both infinities are rejected, NaN is not. *)
Theorem constructed_reading_bounds
    (dev : PyStr.str) (w : PyFloat.float) (hr : Z) (rid : PyStr.str)
    (ts rec : Z) (hs0 : option HeartRateStatus.t)
    (wa0 : option WeightAlert.t) (r : VitalReading) :
  VitalReading_init dev w hr rid ts rec hs0 wa0 = Ok r ->
  device_id r = dev /\ weight_kg r = w /\ heart_rate_bpm r = hr /\
  30 <= hr <= 220 /\
  forallb PyStr.isspace dev = false /\
  match w with
  | PyFloat.Finite q => (0 <= q /\ q <= 300)%Q
  | PyFloat.Infinity _ => False
  | PyFloat.NaN => True
  end.
Proof.
  intros Hinit.
  apply VitalReading_init_Ok_inv in Hinit.
  destruct Hinit as (Hdev & Hlo & Hhi & Hhr & ->).
  destruct (classified_raw_fields dev w hr rid ts rec hs0 wa0)
    as (Hd & Hw & Hh & _).
  split; [exact Hd | split; [exact Hw | split; [exact Hh | ]]].
  split; [exact Hhr | ].
  split.
  - destruct (forallb PyStr.isspace dev) eqn:E; [ | reflexivity].
    apply strip_empty_iff in E. contradiction.
  - destruct w as [q | negative | ]; simpl in Hlo, Hhi; [ | | exact I].
    + apply negb_false_iff in Hlo, Hhi.
      apply Qle_bool_iff in Hlo, Hhi. now split.
    + destruct negative; discriminate.
Qed.

Lemma constructed_reading_bounds_witness :
  VitalReading_init DEV_1 (PyFloat.Finite (70 # 1)) 55 RID_a 100 100
    None None = Ok r55
  /\ (0 <= 70 # 1 /\ 70 # 1 <= 300)%Q.
Proof.
  split; [reflexivity | ].
  apply (constructed_reading_bounds DEV_1 (PyFloat.Finite (70 # 1)) 55
           RID_a 100 100 None None r55 eq_refl).
Defined.

(** X26.  Paging is consistent: for [0 <= k <= k'], what [find_by_device]
    returns with limit [k] is the first [k] elements of what it returns
    with limit [k']. *)
Theorem find_by_device_prefix (s : Store) (dev : PyStr.str) (k k' : Z) :
  0 <= k <= k' ->
  exists short long,
    find_by_device dev k s = (Returns short, s) /\
    find_by_device dev k' s = (Returns long, s) /\
    short = firstn (Z.to_nat k) long.
Proof.
  intros Hk. do 2 eexists.
  split; [apply find_by_device_run' | ].
  split; [apply find_by_device_run' | ].
  rewrite !slice_to_nonneg by lia.
  rewrite firstn_firstn. f_equal. lia.
Qed.

Lemma find_by_device_prefix_witness :
  0 <= 1 <= 2
  /\ exists short long,
       find_by_device DEV_1 1 store_scenario = (Returns short, store_scenario)
       /\ find_by_device DEV_1 2 store_scenario
          = (Returns long, store_scenario)
       /\ short = firstn 1 long.
Proof.
  assert (Hk : 0 <= 1 <= 2) by lia.
  split; [exact Hk | ].
  destruct (find_by_device_prefix store_scenario DEV_1 1 2 Hk)
    as (short & long & Hs & Hl & Heq).
  exists short, long. split; [exact Hs | split; [exact Hl | exact Heq]].
Defined.
